(** * OandaPYSuite: the candle model of [oandapysuite/implementation.py]

    A shallow embedding of [CandleCluster] and [CandleCluster.Candle]:
    construction from a JSON payload, the bull/bear/reversal derivation
    pass, the rolling deviation, iteration, indexing, concatenation and
    [history].

    Python values are modelled by the data the code manipulates; raising
    an exception is a [Raise] result.  What the module imports from
    outside the file ([json], [decimal], [datetime], [int], the package's
    own [stats.standard_deviation] and the attribute lookup of the object
    model) is an interface, [PyLib], over which every definition and
    theorem is stated; [Ref] gives one executable instance on which the
    model is run. *)

From Stdlib Require Import ZArith QArith String Ascii List Bool Lia DecimalString.
From stdpp Require Import base list.
Import ListNotations.
Local Open Scope string_scope.

(** ** Exceptions and results *)

(** A raised exception: its class name and the arguments it was built from. *)
Record exn := Exn { exn_class : string; exn_args : list string }.

Inductive result (A : Type) : Type :=
| Ok (a : A)
| Raise (e : exn).
Arguments Ok {A} a.
Arguments Raise {A} e.

Definition bind {A B : Type} (m : result A) (k : A -> result B) : result B :=
  match m with
  | Ok a => k a
  | Raise e => Raise e
  end.

Notation "'let*' x ':=' m 'in' k" := (bind m (fun x => k))
  (at level 10, x name, m at level 100, k at level 200).

Definition raises {A : Type} (m : result A) (cls : string) : Prop :=
  exists e, m = Raise e /\ exn_class e = cls.

Definition ClusterConcatException (a b : string) : exn :=
  Exn "ClusterConcatException" [a; b].
Definition AttributeError (name : string) : exn := Exn "AttributeError" [name].
Definition KeyError (key : string) : exn := Exn "KeyError" [key].
Definition TypeError : exn := Exn "TypeError" [].
Definition IndexError : exn := Exn "IndexError" [].

(** ** Values produced by [json.loads] *)

#[local] Set Warnings "-register-all".

Inductive json : Type :=
| JNull
| JBool (b : bool)
| JInt (z : Z)
| JFloat (literal : string)
| JStr (s : string)
| JArr (items : list json)
| JObj (members : list (string * json)).

Fixpoint assoc {A : Type} (k : string) (kv : list (string * A)) : option A :=
  match kv with
  | [] => None
  | (k', v) :: rest => if String.eqb k k' then Some v else assoc k rest
  end.

(** [obj[key]] for a string key. *)
Definition py_getitem (obj : json) (key : string) : result json :=
  match obj with
  | JObj kv =>
      match assoc key kv with
      | Some v => Ok v
      | None => Raise (KeyError key)
      end
  | _ => Raise TypeError
  end.

Fixpoint chars (s : string) : list json :=
  match s with
  | EmptyString => []
  | String a rest => JStr (String a EmptyString) :: chars rest
  end.

(** The items a [for] loop over the value visits. *)
Definition py_iter (obj : json) : result (list json) :=
  match obj with
  | JArr items => Ok items
  | JObj kv => Ok (map (fun p => JStr (fst p)) kv)
  | JStr s => Ok (chars s)
  | _ => Raise TypeError
  end.

(** [x == 'true'] *)
Definition py_eq_str (x : json) (s : string) : bool :=
  match x with
  | JStr s' => String.eqb s' s
  | _ => false
  end.

(** [s[:-n]] on a string. *)
Definition str_drop_last (n : nat) (s : string) : string :=
  String.substring 0 (String.length s - n) s.

(** [l[start:]] with Python's treatment of a negative or too large start. *)
Definition py_slice_from {A : Type} (start : Z) (l : list A) : list A :=
  let len := Z.of_nat (length l) in
  let lo := if (start <? 0)%Z then Z.max (len + start) 0 else Z.min start len in
  drop (Z.to_nat lo) l.

(** The last [k] items of a sequence, as the specification words it. *)
Definition last_n {A : Type} (k : nat) (l : list A) : list A :=
  rev (take k (rev l)).

(** [l[index]] with Python's negative indices. *)
Definition py_index {A : Type} (l : list A) (index : Z) : result A :=
  let len := Z.of_nat (length l) in
  let i := if (index <? 0)%Z then (index + len)%Z else index in
  if ((i <? 0) || (len <=? i))%Z then Raise IndexError
  else match l !! Z.to_nat i with
       | Some x => Ok x
       | None => Raise IndexError
       end.

(** [x == y] on values that are [None], [True] or [False]. *)
Definition py_eq_flag (x y : option bool) : bool :=
  match x, y with
  | None, None => true
  | Some a, Some b => Bool.eqb a b
  | _, _ => false
  end.

(** ** The imported libraries *)

Class PyLib : Type := {
  Decimal : Type;
  datetime : Type;
  deviation : Type;
  (** [json.loads] *)
  json_loads : string -> result json;
  (** [decimal.Decimal(x)] *)
  D : json -> result Decimal;
  (** [a - b] on decimals, under a context of the given precision *)
  Decimal_sub : Z -> Decimal -> Decimal -> result Decimal;
  (** [a > b] on decimals *)
  Decimal_gt : Decimal -> Decimal -> result bool;
  (** [datetime.strptime(text, format)] *)
  strptime : string -> string -> result datetime;
  (** [a > b] on naive datetimes *)
  datetime_gt : datetime -> datetime -> bool;
  (** [int(x)] *)
  py_int : json -> result Z;
  (** [oandapysuite.stats.standard_deviation], not part of this file *)
  standard_deviation : list Decimal -> result deviation;
  (** names that resolve on every instance through its class and [object] *)
  inherited_attr : string -> bool
}.

(** Module-level settings of [implementation.py]. *)
Definition time_format : string := "%Y-%m-%dT%X".
Definition prec : Z := 6.

(** ** CandleCluster.Candle *)

Module Candle.
Section WithLib.
Context {L : PyLib}.

Record t : Type := mk {
  open : Decimal;
  close : Decimal;
  low : Decimal;
  high : Decimal;
  oc_displacement : Decimal;
  total_displacement : Decimal;
  complete : bool;
  time : datetime;
  volume : Z;
  gran : json;
  instrument : string;
  reversal : option bool;
  is_bull : option bool;
  is_bear : option bool
}.

Definition __init__ (candledata : json) (ins : string) (gran : json) : result t :=
  let* mid := py_getitem candledata "mid" in
  let* o := py_getitem mid "o" in
  let* open := D o in
  let* mid := py_getitem candledata "mid" in
  let* c := py_getitem mid "c" in
  let* close := D c in
  let* mid := py_getitem candledata "mid" in
  let* l := py_getitem mid "l" in
  let* low := D l in
  let* mid := py_getitem candledata "mid" in
  let* h := py_getitem mid "h" in
  let* high := D h in
  let* oc_displacement := Decimal_sub prec close open in
  let* total_displacement := Decimal_sub prec high low in
  let* cmpl := py_getitem candledata "complete" in
  let complete := if py_eq_str cmpl "true" then true else false in
  let* tm := py_getitem candledata "time" in
  (* Only a string survives [[:-11]] followed by [strptime]: a list is
     sliced and then refused by [strptime], the other values cannot be
     sliced. *)
  let* text := match tm with
               | JStr s => Ok (str_drop_last 11 s)
               | _ => Raise TypeError
               end in
  let* time := strptime text time_format in
  let* vol := py_getitem candledata "volume" in
  let* volume := py_int vol in
  Ok {| open := open; close := close; low := low; high := high;
        oc_displacement := oc_displacement;
        total_displacement := total_displacement;
        complete := complete; time := time; volume := volume;
        gran := gran; instrument := ins;
        reversal := None; is_bull := None; is_bear := None |}.

Definition set_direction (bull bear : bool) (c : t) : t :=
  {| open := open c; close := close c; low := low c; high := high c;
     oc_displacement := oc_displacement c;
     total_displacement := total_displacement c;
     complete := complete c; time := time c; volume := volume c;
     gran := gran c; instrument := instrument c;
     reversal := reversal c; is_bull := Some bull; is_bear := Some bear |}.

Definition set_reversal (r : bool) (c : t) : t :=
  {| open := open c; close := close c; low := low c; high := high c;
     oc_displacement := oc_displacement c;
     total_displacement := total_displacement c;
     complete := complete c; time := time c; volume := volume c;
     gran := gran c; instrument := instrument c;
     reversal := Some r; is_bull := is_bull c; is_bear := is_bear c |}.

(** The candle as its constructor leaves it: the three derived attributes
    back to [None]. *)
Definition as_parsed (c : t) : t :=
  {| open := open c; close := close c; low := low c; high := high c;
     oc_displacement := oc_displacement c;
     total_displacement := total_displacement c;
     complete := complete c; time := time c; volume := volume c;
     gran := gran c; instrument := instrument c;
     reversal := None; is_bull := None; is_bear := None |}.

(** What an attribute of a candle can hold. *)
Inductive attr_value : Type :=
| ADecimal (d : Decimal)
| ADatetime (d : datetime)
| AJson (v : json)
| AInherited (name : string).

Definition flag_value (f : option bool) : attr_value :=
  match f with
  | Some b => AJson (JBool b)
  | None => AJson JNull
  end.

(** The attributes [__init__] stores on the instance. *)
Definition instance_attr (c : t) (name : string) : option attr_value :=
  if String.eqb name "open" then Some (ADecimal (open c))
  else if String.eqb name "close" then Some (ADecimal (close c))
  else if String.eqb name "low" then Some (ADecimal (low c))
  else if String.eqb name "high" then Some (ADecimal (high c))
  else if String.eqb name "oc_displacement" then Some (ADecimal (oc_displacement c))
  else if String.eqb name "total_displacement" then Some (ADecimal (total_displacement c))
  else if String.eqb name "complete" then Some (AJson (JBool (complete c)))
  else if String.eqb name "time" then Some (ADatetime (time c))
  else if String.eqb name "volume" then Some (AJson (JInt (volume c)))
  else if String.eqb name "gran" then Some (AJson (gran c))
  else if String.eqb name "instrument" then Some (AJson (JStr (instrument c)))
  else if String.eqb name "reversal" then Some (flag_value (reversal c))
  else if String.eqb name "is_bull" then Some (flag_value (is_bull c))
  else if String.eqb name "is_bear" then Some (flag_value (is_bear c))
  else None.

(** [getattr(candle, name)]; a [name] that is [None] is not a string. *)
Definition getattr (c : t) (name : option string) : result attr_value :=
  match name with
  | None => Raise TypeError
  | Some name =>
      match instance_attr c name with
      | Some v => Ok v
      | None =>
          if inherited_attr name then Ok (AInherited name)
          else Raise (AttributeError name)
      end
  end.

(** The names of the attributes [__init__] stores. *)
Definition attribute_names : list string :=
  ["open"; "close"; "low"; "high"; "oc_displacement"; "total_displacement";
   "complete"; "time"; "volume"; "gran"; "instrument"; "reversal";
   "is_bull"; "is_bear"].

Definition is_attribute (name : string) : bool :=
  existsb (String.eqb name) attribute_names.

(** A name [getattr] resolves on a candle. *)
Definition recognized (name : string) : bool :=
  is_attribute name || inherited_attr name.

End WithLib.
Arguments t : clear implicits.
Arguments t {L}.
Arguments attr_value : clear implicits.
Arguments attr_value {L}.
End Candle.

(** ** CandleCluster *)

Module CandleCluster.
Section WithLib.
Context {L : PyLib}.

Record t : Type := mk {
  candledata : json;
  candles : list Candle.t;
  ind : Z;
  gran : json;
  instrument : string;
  std : deviation
}.

(** [s.replace('/', '_')] *)
Fixpoint replace_slash (s : string) : string :=
  match s with
  | EmptyString => EmptyString
  | String a rest =>
      String (if Ascii.eqb a "/"%char then "_"%char else a) (replace_slash rest)
  end.

(** [x.replace('/', '_')] on a value of the payload: only strings have the method. *)
Definition py_replace_slash (x : json) : result string :=
  match x with
  | JStr s => Ok (replace_slash s)
  | _ => Raise (AttributeError "replace")
  end.

(** Lines 65-66: one [Candle] per entry, appended in turn. *)
Fixpoint parse_loop (records : list json) (ins : string) (gran : json)
    (candles : list Candle.t) : result (list Candle.t) :=
  match records with
  | [] => Ok candles
  | candle :: rest =>
      let* c := Candle.__init__ candle ins gran in
      parse_loop rest ins gran (candles ++ [c])
  end.

(** Lines 68-78: the body of the derivation loop at index [i]. *)
Definition derive_step (candles : list Candle.t) (i : nat) : result (list Candle.t) :=
  if Nat.eqb i 0 then Ok candles
  else
    let* ci := py_index candles (Z.of_nat i) in
    let* cp := py_index candles (Z.of_nat i - 1) in
    let* up := Decimal_gt (Candle.close ci) (Candle.close cp) in
    let candles :=
      if up then <[i := Candle.set_direction true false ci]> candles
      else <[i := Candle.set_direction false true ci]> candles in
    let* ci := py_index candles (Z.of_nat i) in
    let* cp := py_index candles (Z.of_nat i - 1) in
    if py_eq_flag (Candle.is_bull ci) (Candle.is_bull cp)
    then Ok (<[i := Candle.set_reversal false ci]> candles)
    else Ok (<[i := Candle.set_reversal true ci]> candles).

(** Line 67: [for i in range(...)], threading the candle list. *)
Fixpoint derive_loop (indices : list nat) (candles : list Candle.t)
    : result (list Candle.t) :=
  match indices with
  | [] => Ok candles
  | i :: rest =>
      let* candles := derive_step candles i in
      derive_loop rest candles
  end.

Definition __init__ (candsjson : string) : result t :=
  let* candledata := json_loads candsjson in
  let* gran := py_getitem candledata "granularity" in
  let* ins := py_getitem candledata "instrument" in
  let* instrument := py_replace_slash ins in
  let* raw := py_getitem candledata "candles" in
  let* records := py_iter raw in
  let* candles := parse_loop records instrument gran [] in
  let* candles := derive_loop (seq 0 (length candles)) candles in
  let* std := standard_deviation
                (map Candle.close (py_slice_from (-30) candles)) in
  Ok {| candledata := candledata; candles := candles; ind := 0;
        gran := gran; instrument := instrument; std := std |}.

(** What one round of the loop makes of candle [c] when the comparison of
    its close with the previous candle's gave [up]; [prev] is the previous
    candle as the loop left it. *)
Definition derive (up : bool) (prev c : Candle.t) : Candle.t :=
  Candle.set_reversal (negb (py_eq_flag (Some up) (Candle.is_bull prev)))
    (Candle.set_direction up (negb up) c).

(** The candle list [cs] after the rounds for the indices below [k], the
    loop having started from [cs0]. *)
Definition pass_inv (cs0 : list Candle.t) (k : nat) (cs : list Candle.t) : Prop :=
  Candle.as_parsed <$> cs = Candle.as_parsed <$> cs0 /\
  (forall j, j = 0%nat \/ (k <= j)%nat -> cs !! j = cs0 !! j) /\
  (forall j c, (1 <= j < k)%nat -> cs !! j = Some c ->
     exists prev up,
       cs !! (j - 1)%nat = Some prev /\
       Decimal_gt (Candle.close c) (Candle.close prev) = Ok up /\
       c = derive up prev (Candle.as_parsed c)).

(** A payload the constructor accepts: it parses, the three members are
    there, the instrument is a string, [candles] is an array whose entries
    all build a [Candle], neighbouring closes compare, and the deviation
    of the closing prices is defined. *)
Definition valid_payload (candsjson : string) (records : list json) : Prop :=
  exists (data gran : json) (ins : string) (parsed : list Candle.t),
    json_loads candsjson = Ok data /\
    py_getitem data "granularity" = Ok gran /\
    py_getitem data "instrument" = Ok (JStr ins) /\
    py_getitem data "candles" = Ok (JArr records) /\
    Forall2 (fun r c => Candle.__init__ r (replace_slash ins) gran = Ok c)
      records parsed /\
    (forall i a b,
        parsed !! i = Some a -> parsed !! S i = Some b ->
        exists up, Decimal_gt (Candle.close b) (Candle.close a) = Ok up) /\
    (exists d,
        standard_deviation (map Candle.close (py_slice_from (-30) parsed)) = Ok d).

(** *** Iteration *)

(** The iterator [iter(list)] returns: the list it walks and its own position. *)
Record list_iterator : Type := { it_list : list Candle.t; it_pos : nat }.

Definition py_iter_list (l : list Candle.t) : list_iterator :=
  {| it_list := l; it_pos := 0 |}.

(** [next(it)]: [None] stands for [StopIteration]. *)
Definition list_iterator_next (it : list_iterator)
    : option (Candle.t * list_iterator) :=
  match it_list it !! it_pos it with
  | Some c => Some (c, {| it_list := it_list it; it_pos := S (it_pos it) |})
  | None => None
  end.

(** [__iter__] leaves the cluster as it is and hands out a new list iterator. *)
Definition __iter__ (self : t) : t * list_iterator :=
  (self, py_iter_list (candles self)).

(** [__next__] returns the cursor and advances it. *)
Definition __next__ (self : t) : t * Z :=
  let ind0 := ind self in
  ({| candledata := candledata self; candles := candles self;
      ind := (ind self + 1)%Z; gran := gran self;
      instrument := instrument self; std := std self |}, ind0).

(** The candles a [for] statement receives from an iterator, in the order
    received, within [fuel] calls of [next]; [None] when the fuel runs out
    before [StopIteration]. *)
Fixpoint drain (fuel : nat) (it : list_iterator) (seen : list Candle.t)
    : option (list Candle.t) :=
  match fuel with
  | O => None
  | S fuel =>
      match list_iterator_next it with
      | None => Some seen
      | Some (c, it) => drain fuel it (seen ++ [c])
      end
  end.

(** [for candle in self: ...]: the cluster afterwards and the candles visited. *)
Definition traverse (self : t) : t * option (list Candle.t) :=
  let '(self, it) := __iter__ self in
  (self, drain (S (length (it_list it) - it_pos it)) it []).

Definition __getitem__ (self : t) (index : Z) : result Candle.t :=
  py_index (candles self) index.

Definition __len__ (self : t) : Z := Z.of_nat (length (candles self)).

(** *** Concatenation *)

(** [deepcopy(x)]: an equal cluster that shares nothing with [x]. *)
Definition deepcopy (x : t) : t := x.

(** [result.candles.append(candle)] for every candle of a traversal. *)
Definition append_all (result : t) (visited : list Candle.t) : t :=
  {| candledata := candledata result;
     candles := candles result ++ visited;
     ind := ind result; gran := gran result;
     instrument := instrument result; std := std result |}.

Definition visited (self : t) : list Candle.t :=
  match snd (traverse self) with
  | Some l => l
  | None => []
  end.

(** The state of [__add__] at its [return] statement: what the local
    [result] is bound to ([None] when no branch assigned it) and the value
    the statement returns. *)
Record add_frame : Type := { local_result : option t; returned : option t }.

Definition add_body (self b : t) : result add_frame :=
  if negb (String.eqb (instrument self) (instrument b)) then
    Raise (ClusterConcatException (instrument self) (instrument b))
  else
    let* s0 := __getitem__ self 0 in
    let* bl := __getitem__ b (-1) in
    if datetime_gt (Candle.time s0) (Candle.time bl) then
      let result := deepcopy b in
      let result := append_all result (visited self) in
      Ok {| local_result := Some result; returned := None |}
    else
      let* b0 := __getitem__ b 0 in
      let* sl := __getitem__ self (-1) in
      if datetime_gt (Candle.time b0) (Candle.time sl) then
        let result := deepcopy self in
        let result := append_all result (visited b) in
        Ok {| local_result := Some result; returned := None |}
      else
        Ok {| local_result := None; returned := None |}.

(** [self + b]: [Ok None] is a call that returns [None]. *)
Definition __add__ (self b : t) : result (option t) :=
  let* frame := add_body self b in
  Ok (returned frame).

(** *** history *)

Inductive history_value : Type :=
| HList (values : list Candle.attr_value)
| HPair (x y : list Candle.attr_value)
| HNone.

(** Truth value of an argument that is [None] or a string. *)
Definition truthy (v : option string) : bool :=
  match v with
  | Some s => negb (String.eqb s "")
  | None => false
  end.

(** Lines 126-128. *)
Fixpoint history_pairs (cs : list Candle.t) (valuex valuey : option string)
    (x y : list Candle.attr_value)
    : result (list Candle.attr_value * list Candle.attr_value) :=
  match cs with
  | [] => Ok (x, y)
  | candle :: rest =>
      let* vx := Candle.getattr candle valuex in
      let* vy := Candle.getattr candle valuey in
      history_pairs rest valuex valuey (x ++ [vx]) (y ++ [vy])
  end.

(** Line 131. *)
Fixpoint history_list (cs : list Candle.t) (valuex : option string)
    : result (list Candle.attr_value) :=
  match cs with
  | [] => Ok []
  | candle :: rest =>
      let* v := Candle.getattr candle valuex in
      let* vs := history_list rest valuex in
      Ok (v :: vs)
  end.

Definition history (self : t) (valuex valuey : option string)
    : result history_value :=
  if truthy valuex && truthy valuey then
    let* xy := history_pairs (candles self) valuex valuey [] [] in
    Ok (HPair (fst xy) (snd xy))
  else if negb (truthy valuey) then
    let* l := history_list (candles self) valuex in
    Ok (HList l)
  else Ok HNone.

(** *** Display and manual stepping *)

Definition nat_str (n : nat) : string := NilEmpty.string_of_uint (Nat.to_uint n).

(** [__str__]: the three fields of the format string are evaluated from
    left to right; [datetime_str] is [str] on a datetime. *)
Definition __str__ (datetime_str : datetime -> string) (self : t) : result string :=
  let count := nat_str (length (candles self)) in
  let* first := py_index (candles self) 0 in
  let* last := py_index (candles self) (-1) in
  Ok ("<" ++ count ++ " candles, time: " ++ datetime_str (Candle.time first)
          ++ " thru " ++ datetime_str (Candle.time last) ++ ">").

Definition __repr__ (datetime_str : datetime -> string) (self : t) : result string :=
  __str__ datetime_str self.

(** [k] calls of [next(self)] in a row: the cluster afterwards and the
    values returned, in order. *)
Fixpoint next_calls (k : nat) (self : t) : t * list Z :=
  match k with
  | O => (self, [])
  | S k =>
      let '(self, value) := __next__ self in
      let '(self, values) := next_calls k self in
      (self, value :: values)
  end.

(** A payload that parses to an object holding the three members, the
    instrument a string and [candles] an array. *)
Definition payload_members (candsjson : string) (data gran : json) (ins : string)
    (records : list json) : Prop :=
  json_loads candsjson = Ok data /\
  py_getitem data "granularity" = Ok gran /\
  py_getitem data "instrument" = Ok (JStr ins) /\
  py_getitem data "candles" = Ok (JArr records).

End WithLib.
Arguments t : clear implicits.
Arguments t {L}.
End CandleCluster.

(** ** An executable instance of the library interface

    [Ref] reads a fragment of what the real libraries read: JSON texts
    without escapes, fractions or exponents; decimal literals made of a
    sign, digits and a fractional part; timestamps with fixed-width
    fields.  Outside the fragment it raises.  It serves to run the model
    on concrete payloads. *)

Module Ref.

Local Open Scope Z_scope.

Definition JSONDecodeError : exn := Exn "JSONDecodeError" [].
Definition InvalidOperation : exn := Exn "InvalidOperation" [].
Definition ValueError : exn := Exn "ValueError" [].

(** *** Digits *)

Definition digit (a : ascii) : option Z :=
  let n := Z.of_nat (nat_of_ascii a) in
  if (48 <=? n) && (n <=? 57) then Some (n - 48) else None.

(** The number a run of digits denotes, and how many digits it has;
    [None] on an empty run or a character that is no digit. *)
Fixpoint digits_from (s : string) (acc : Z) (n : Z) : option (Z * Z) :=
  match s with
  | EmptyString => if n =? 0 then None else Some (acc, n)
  | String a rest =>
      match digit a with
      | Some d => digits_from rest (10 * acc + d) (n + 1)
      | None => None
      end
  end.

Definition unsigned (s : string) : option (Z * Z) := digits_from s 0 0.

(** A leading sign, and the rest. *)
Definition split_sign (s : string) : bool * string :=
  match s with
  | String "-"%char rest => (true, rest)
  | String "+"%char rest => (false, rest)
  | _ => (false, s)
  end.

Definition signed (s : string) : option Z :=
  let '(neg, rest) := split_sign s in
  match unsigned rest with
  | Some (v, _) => Some (if neg then - v else v)
  | None => None
  end.

(** The text before the first [sep], and the text after it when there is one. *)
Fixpoint split_at (sep : ascii) (s : string) : string * option string :=
  match s with
  | EmptyString => (EmptyString, None)
  | String a rest =>
      if Ascii.eqb a sep then (EmptyString, Some rest)
      else let '(before, after) := split_at sep rest in (String a before, after)
  end.

(** *** Decimals: coefficient and exponent *)

Record dec : Type := Dec { coefficient : Z; exponent : Z }.

Definition dec_of_string (s : string) : option dec :=
  let '(neg, body) := split_sign s in
  let '(whole, frac) := split_at "."%char body in
  let sgn v := if neg then - v else v in
  match frac with
  | None =>
      match unsigned whole with
      | Some (v, _) => Some (Dec (sgn v) 0)
      | None => None
      end
  | Some frac =>
      match digits_from whole 0 0, digits_from frac 0 0 with
      | Some (w, _), Some (f, n) => Some (Dec (sgn (w * 10 ^ n + f)) (- n))
      | _, _ => None
      end
  end.

Definition D (x : json) : result dec :=
  match x with
  | JStr s =>
      match dec_of_string s with
      | Some d => Ok d
      | None => Raise InvalidOperation
      end
  | JInt z => Ok (Dec z 0)
  | JBool b => Ok (Dec (if b then 1 else 0) 0)
  | _ => Raise TypeError
  end.

(** Both coefficients over the smaller exponent. *)
Definition align (a b : dec) : Z * Z * Z :=
  let e := Z.min (exponent a) (exponent b) in
  (coefficient a * 10 ^ (exponent a - e), coefficient b * 10 ^ (exponent b - e), e).

Definition Decimal_gt (a b : dec) : result bool :=
  let '(ca, cb, _) := align a b in Ok (cb <? ca).

Fixpoint ndigits_fuel (fuel : nat) (n : Z) : Z :=
  match fuel with
  | O => 1
  | S fuel => if n <? 10 then 1 else 1 + ndigits_fuel fuel (n / 10)
  end.

Definition ndigits (n : Z) : Z := ndigits_fuel (Z.to_nat (Z.log2 n)) n.

(** Round to [p] significant digits, ties to the even neighbour. *)
Definition round_half_even (p : Z) (d : dec) : dec :=
  let m := Z.abs (coefficient d) in
  let k := ndigits m - p in
  if k <=? 0 then d
  else
    let q := m / 10 ^ k in
    let r := m mod 10 ^ k in
    let half := 5 * 10 ^ (k - 1) in
    let q := if (half <? r) || ((r =? half) && Z.odd q) then q + 1 else q in
    let '(q, e) := if q =? 10 ^ p then (q / 10, exponent d + k + 1)
                   else (q, exponent d + k) in
    Dec (if coefficient d <? 0 then - q else q) e.

Definition Decimal_sub (p : Z) (a b : dec) : result dec :=
  let '(ca, cb, e) := align a b in
  Ok (round_half_even p (Dec (ca - cb) e)).

(** *** Naive datetimes *)

Record dt : Type := Dt {
  year : Z; month : Z; day : Z; hour : Z; minute : Z; second : Z
}.

Definition leap (y : Z) : bool :=
  ((y mod 4 =? 0) && negb (y mod 100 =? 0)) || (y mod 400 =? 0).

Definition days_in_month (y m : Z) : Z :=
  if m =? 2 then (if leap y then 29 else 28)
  else if (m =? 4) || (m =? 6) || (m =? 9) || (m =? 11) then 30
  else 31.

(** A field of exactly [width] digits at offset [at_]. *)
Definition field (s : string) (at_ width : nat) : option Z :=
  match unsigned (String.substring at_ width s) with
  | Some (v, n) => if n =? Z.of_nat width then Some v else None
  | None => None
  end.

Definition char_is (s : string) (at_ : nat) (a : ascii) : bool :=
  match String.get at_ s with
  | Some b => Ascii.eqb a b
  | None => false
  end.

Definition dt_of_string (s : string) : option dt :=
  match field s 0 4, field s 5 2, field s 8 2,
        field s 11 2, field s 14 2, field s 17 2 with
  | Some y, Some mo, Some d, Some h, Some mi, Some se =>
      if Nat.eqb (String.length s) 19
         && char_is s 4 "-" && char_is s 7 "-" && char_is s 10 "T"
         && char_is s 13 ":" && char_is s 16 ":"
         && (1 <=? y) && (1 <=? mo) && (mo <=? 12)
         && (1 <=? d) && (d <=? days_in_month y mo)
         && (h <=? 23) && (mi <=? 59) && (se <=? 59)
      then Some (Dt y mo d h mi se)
      else None
  | _, _, _, _, _, _ => None
  end.

Definition strptime (text format : string) : result dt :=
  if String.eqb format "%Y-%m-%dT%X" then
    match dt_of_string text with
    | Some t => Ok t
    | None => Raise ValueError
    end
  else Raise ValueError.

(** Seconds are compared last, years first. *)
Fixpoint lex_gt (a b : list Z) : bool :=
  match a, b with
  | x :: a, y :: b => (y <? x) || ((x =? y) && lex_gt a b)
  | _, _ => false
  end.

Definition dt_fields (t : dt) : list Z :=
  [year t; month t; day t; hour t; minute t; second t].

Definition datetime_gt (a b : dt) : bool := lex_gt (dt_fields a) (dt_fields b).

(** *** int *)

Definition py_int (x : json) : result Z :=
  match x with
  | JInt z => Ok z
  | JBool b => Ok (if b then 1 else 0)
  | JStr s =>
      match signed s with
      | Some z => Ok z
      | None => Raise ValueError
      end
  | _ => Raise TypeError
  end.

(** *** Reading and writing JSON *)

Definition dquote : ascii := ascii_of_nat 34.
Definition backslash : ascii := ascii_of_nat 92.

Definition is_space (a : ascii) : bool :=
  Ascii.eqb a " " || Ascii.eqb a "010" || Ascii.eqb a "013" || Ascii.eqb a "009".

Fixpoint skip_ws (s : string) : string :=
  match s with
  | String a rest => if is_space a then skip_ws rest else s
  | EmptyString => s
  end.

(** The characters up to the closing quote, and the text after it. *)
Fixpoint read_string (s : string) : option (string * string) :=
  match s with
  | EmptyString => None
  | String a rest =>
      if Ascii.eqb a dquote then Some (EmptyString, rest)
      else if Ascii.eqb a backslash then None
      else match read_string rest with
           | Some (str, r) => Some (String a str, r)
           | None => None
           end
  end.

Fixpoint take_digits (s : string) : string * string :=
  match s with
  | String a rest =>
      match digit a with
      | Some _ => let '(ds, r) := take_digits rest in (String a ds, r)
      | None => (EmptyString, s)
      end
  | EmptyString => (EmptyString, s)
  end.

Definition starts_fraction (s : string) : bool :=
  match s with
  | String a _ => Ascii.eqb a "." || Ascii.eqb a "e" || Ascii.eqb a "E"
  | EmptyString => false
  end.

(** An integer literal: an optional minus, then [0] or digits that do not
    start with [0]. *)
Definition read_integer (s : string) : option (json * string) :=
  let '(neg, body) := match s with
                      | String "-"%char rest => (true, rest)
                      | _ => (false, s)
                      end in
  let '(ds, rest) := take_digits body in
  match unsigned ds with
  | Some (v, n) =>
      if ((1 <? n) && char_is ds 0 "0") || starts_fraction rest then None
      else Some (JInt (if neg then - v else v), rest)
  | None => None
  end.

Definition read_word (word : string) (v : json) (s : string) : option (json * string) :=
  if String.prefix word s
  then Some (v, String.substring (String.length word)
                  (String.length s - String.length word) s)
  else None.

(** [d[k] = v] on the members read so far: a repeated key keeps its place
    and takes the later value. *)
Fixpoint dict_set (k : string) (v : json) (kv : list (string * json))
    : list (string * json) :=
  match kv with
  | [] => [(k, v)]
  | (k', v') :: rest =>
      if String.eqb k k' then (k, v) :: rest else (k', v') :: dict_set k v rest
  end.

Fixpoint read_value (fuel : nat) (s : string) : option (json * string) :=
  match fuel with
  | O => None
  | S fuel =>
      match skip_ws s with
      | String "{"%char rest =>
          match skip_ws rest with
          | String "}"%char r => Some (JObj [], r)
          | _ => read_members fuel rest []
          end
      | String "["%char rest =>
          match skip_ws rest with
          | String "]"%char r => Some (JArr [], r)
          | _ => read_items fuel rest []
          end
      | String "t"%char _ as w => read_word "true" (JBool true) w
      | String "f"%char _ as w => read_word "false" (JBool false) w
      | String "n"%char _ as w => read_word "null" JNull w
      | String a rest as w =>
          if Ascii.eqb a dquote then
            match read_string rest with
            | Some (str, r) => Some (JStr str, r)
            | None => None
            end
          else read_integer w
      | EmptyString => None
      end
  end
with read_items (fuel : nat) (s : string) (acc : list json) : option (json * string) :=
  match fuel with
  | O => None
  | S fuel =>
      match read_value fuel s with
      | Some (v, rest) =>
          match skip_ws rest with
          | String ","%char r => read_items fuel r (acc ++ [v])
          | String "]"%char r => Some (JArr (acc ++ [v]), r)
          | _ => None
          end
      | None => None
      end
  end
with read_members (fuel : nat) (s : string) (acc : list (string * json))
    : option (json * string) :=
  match fuel with
  | O => None
  | S fuel =>
      match skip_ws s with
      | String a r =>
          match (if Ascii.eqb a dquote then read_string r else None) with
          | Some (k, r) =>
              match skip_ws r with
              | String ":"%char r =>
                  match read_value fuel r with
                  | Some (v, r) =>
                      match skip_ws r with
                      | String ","%char r => read_members fuel r (dict_set k v acc)
                      | String "}"%char r => Some (JObj (dict_set k v acc), r)
                      | _ => None
                      end
                  | None => None
                  end
              | _ => None
              end
          | None => None
          end
      | EmptyString => None
      end
  end.

Definition json_loads (s : string) : result json :=
  match read_value (S (String.length s)) s with
  | Some (v, rest) =>
      match skip_ws rest with
      | EmptyString => Ok v
      | _ => Raise JSONDecodeError
      end
  | None => Raise JSONDecodeError
  end.

(** The JSON text of a value whose strings need no escape. *)
Definition quoted (s : string) : string :=
  String dquote (s ++ String dquote EmptyString).

Fixpoint join (sep : string) (parts : list string) : string :=
  match parts with
  | [] => EmptyString
  | [x] => x
  | x :: rest => x ++ sep ++ join sep rest
  end.

Fixpoint dumps (v : json) : string :=
  match v with
  | JNull => "null"
  | JBool true => "true"
  | JBool false => "false"
  | JInt z => NilEmpty.string_of_int (Z.to_int z)
  | JFloat literal => literal
  | JStr s => quoted s
  | JArr items => "[" ++ join ", " (map dumps items) ++ "]"
  | JObj members =>
      "{" ++ join ", "
               ((fix each (kv : list (string * json)) : list string :=
                   match kv with
                   | [] => []
                   | (k, x) :: rest => (quoted k ++ ": " ++ dumps x) :: each rest
                   end) members) ++ "}"
  end.

(** *** Statistics *)

(** A deviation, held exactly as its square. *)
Record dev : Type := SqrtOf { squared : Q }.

Definition dec_value (d : dec) : Q :=
  if 0 <=? exponent d then inject_Z (coefficient d * 10 ^ exponent d)
  else Qmake (coefficient d) (Z.to_pos (10 ^ (- exponent d))).

Definition Qsum (l : list Q) : Q := fold_right Qplus 0%Q l.

Definition variance (values : list Q) : Q :=
  let n := inject_Z (Z.of_nat (length values)) in
  let mean := (Qsum values / n)%Q in
  Qred (Qsum (map (fun x => (x - mean) * (x - mean))%Q values) / n)%Q.

(** Modelled from the spec: [oandapysuite/stats.py] is not among the
    sources.  "Computes a standard deviation over a numeric sequence";
    "treat as population standard deviation"; "fails with an
    [EmptyInputError] when given an empty sequence". *)
Definition standard_deviation (values : list dec) : result dev :=
  match values with
  | [] => Raise (Exn "EmptyInputError" [])
  | _ => Ok (SqrtOf (variance (map dec_value values)))
  end.

(** *** Attribute names every object answers to *)

Definition inherited_attr (name : string) : bool :=
  existsb (String.eqb name)
    ["__class__"; "__dict__"; "__doc__"; "__module__"; "__weakref__";
     "__init__"; "__str__"; "__repr__"; "__new__"; "__hash__";
     "__eq__"; "__ne__"; "__lt__"; "__le__"; "__gt__"; "__ge__";
     "__getattribute__"; "__setattr__"; "__delattr__"; "__dir__";
     "__format__"; "__reduce__"; "__reduce_ex__"; "__sizeof__";
     "__subclasshook__"; "__init_subclass__"]%string.

#[export] Instance lib : PyLib :=
  Build_PyLib dec dt dev json_loads D Decimal_sub Decimal_gt strptime
    datetime_gt py_int standard_deviation inherited_attr.

End Ref.

(** ** Sample payloads *)

Module Samples.

(** One entry of the [candles] array, closing at [c] at second [sec] of
    2020-01-01T00:00. *)
Definition entry (c : string) (sec : string) : json :=
  JObj [("complete", JStr "true");
        ("volume", JInt 12);
        ("time", JStr ("2020-01-01T00:00:" ++ sec ++ ".000000000Z"));
        ("mid", JObj [("o", JStr "1.10"); ("h", JStr "1.50");
                      ("l", JStr "0.90"); ("c", JStr c)])].

Definition payload (instrument : string) (entries : list json) : string :=
  Ref.dumps (JObj [("instrument", JStr instrument);
                   ("granularity", JStr "S1");
                   ("candles", JArr entries)]).

(** Closes 1.0, 1.0, 1.3 at t = 1, 2, 3. *)
Definition entries_A : list json :=
  [entry "1.0" "01"; entry "1.0" "02"; entry "1.3" "03"].
Definition payload_A : string := payload "USD/CAD" entries_A.

(** t = 4, 5, 6, same instrument. *)
Definition entries_B : list json :=
  [entry "1.2" "04"; entry "1.4" "05"; entry "1.1" "06"].
Definition payload_B : string := payload "USD/CAD" entries_B.

(** Another instrument. *)
Definition payload_C : string := payload "EUR/USD" entries_B.

(** A single candle. *)
Definition payload_one : string := payload "USD/CAD" [entry "1.25" "09"].

(** The clusters the constructor builds from the payloads. *)
Definition no_cluster : CandleCluster.t (L := Ref.lib) :=
  @CandleCluster.mk Ref.lib JNull [] 0%Z JNull "" (Ref.SqrtOf 0%Q).

Definition built (candsjson : string) : CandleCluster.t (L := Ref.lib) :=
  match CandleCluster.__init__ candsjson with
  | Ok c => c
  | Raise _ => no_cluster
  end.

Definition cluster_A : CandleCluster.t (L := Ref.lib) :=
  Eval vm_compute in built payload_A.
Definition cluster_B : CandleCluster.t (L := Ref.lib) :=
  Eval vm_compute in built payload_B.
Definition cluster_C : CandleCluster.t (L := Ref.lib) :=
  Eval vm_compute in built payload_C.
Definition cluster_one : CandleCluster.t (L := Ref.lib) :=
  Eval vm_compute in built payload_one.

(** The second of the minute at which each candle of a list stands. *)
Definition seconds (cs : list (Candle.t (L := Ref.lib))) : list Z :=
  map (fun c : Candle.t (L := Ref.lib) => Ref.second (Candle.time c)) cs.

End Samples.

(** ** Payloads the constructor refuses, and an empty cluster *)

Module Refused.

(** No [granularity] member. *)
Definition payload_no_granularity : string :=
  Ref.dumps (JObj [("instrument", JStr "USD/CAD"); ("candles", JArr [])]).

(** An array where an object is expected. *)
Definition payload_array : string := Ref.dumps (JArr [JInt 1; JInt 2]).

(** A number as instrument. *)
Definition payload_numeric_instrument : string :=
  Ref.dumps (JObj [("instrument", JInt 7); ("granularity", JStr "S1");
                   ("candles", JArr Samples.entries_A)]).

(** A second entry with no [mid] member. *)
Definition entry_no_mid : json :=
  JObj [("complete", JStr "true"); ("volume", JInt 12);
        ("time", JStr "2020-01-01T00:00:02.000000000Z")].
Definition payload_bad_entry : string :=
  Samples.payload "USD/CAD"
    [Samples.entry "1.0" "01"; entry_no_mid; Samples.entry "1.3" "03"].

(** No candles at all. *)
Definition payload_empty : string := Samples.payload "USD/CAD" [].

(** [candles] given as a string. *)
Definition payload_candles_text : string :=
  Ref.dumps (JObj [("instrument", JStr "USD/CAD"); ("granularity", JStr "S1");
                   ("candles", JStr "none")]).

(** [complete] given as a JSON boolean, as a live feed sends it. *)
Definition entry_boolean_complete : json :=
  JObj [("complete", JBool true); ("volume", JInt 3);
        ("time", JStr "2020-01-01T00:00:07.000000000Z");
        ("mid", JObj [("o", JStr "1.10"); ("h", JStr "1.50");
                      ("l", JStr "0.90"); ("c", JStr "1.20")])].
Definition payload_boolean_complete : string :=
  Samples.payload "USD/CAD" [entry_boolean_complete].
Definition cluster_boolean_complete : CandleCluster.t (L := Ref.lib) :=
  Eval vm_compute in Samples.built payload_boolean_complete.

(** [str] on a datetime of the reference instance:
    [YYYY-MM-DD HH:MM:SS], each field padded with zeros. *)
Definition padded (width : nat) (z : Z) : string :=
  let digits := CandleCluster.nat_str (Z.to_nat z) in
  Ref.join "" (repeat "0" (width - String.length digits)) ++ digits.

Definition dt_str (t : Ref.dt) : string :=
  padded 4 (Ref.year t) ++ "-" ++ padded 2 (Ref.month t) ++ "-"
    ++ padded 2 (Ref.day t) ++ " " ++ padded 2 (Ref.hour t) ++ ":"
    ++ padded 2 (Ref.minute t) ++ ":" ++ padded 2 (Ref.second t).

End Refused.

(** * Properties *)

Local Open Scope list_scope.

(** ** The result monad *)

Lemma bind_Ok {A B : Type} (m : result A) (k : A -> result B) (b : B) :
  bind m k = Ok b -> exists a, m = Ok a /\ k a = Ok b.
Proof.
  destruct m as [a|e]; simpl; intros H; [eauto | discriminate].
Qed.

(** Peels the leading [let*] of a hypothesis that succeeded. *)
Ltac peel H :=
  let x := fresh "x" in
  let E := fresh "E" in
  apply bind_Ok in H; destruct H as (x & E & H).

(** ** Indexing and slicing *)

Lemma py_index_nat {A : Type} (l : list A) (i : nat) (x : A) :
  l !! i = Some x -> py_index l (Z.of_nat i) = Ok x.
Proof.
  intros H. pose proof (lookup_lt_Some _ _ _ H) as Hlt.
  unfold py_index. cbv zeta.
  destruct (Z.ltb_spec (Z.of_nat i) 0) as [Hneg|_]; [lia |].
  destruct (Z.ltb_spec (Z.of_nat i) 0) as [Hneg|_]; [lia |].
  destruct (Z.leb_spec (Z.of_nat (length l)) (Z.of_nat i)) as [Hge|_]; [lia |].
  simpl. rewrite Nat2Z.id, H. reflexivity.
Qed.

Lemma py_index_pred {A : Type} (l : list A) (i : nat) (x : A) :
  (0 < i)%nat -> l !! (i - 1)%nat = Some x -> py_index l (Z.of_nat i - 1) = Ok x.
Proof.
  intros Hi H. replace (Z.of_nat i - 1)%Z with (Z.of_nat (i - 1)) by lia.
  now apply py_index_nat.
Qed.

Lemma py_slice_last {A : Type} (k : nat) (l : list A) :
  py_slice_from (- Z.of_nat (S k)) l = last_n (Nat.min (S k) (length l)) l.
Proof.
  unfold py_slice_from, last_n. cbv zeta.
  destruct (Z.ltb_spec (- Z.of_nat (S k)) 0) as [_|Hpos]; [| lia].
  rewrite firstn_rev, rev_involutive.
  f_equal. lia.
Qed.

(** ** Construction *)

Section Construction.
Context {L : PyLib}.

Import CandleCluster.

Lemma Candle_init_fresh (r : json) (ins : string) (g : json) (c : Candle.t) :
  Candle.__init__ r ins g = Ok c -> Candle.as_parsed c = c.
Proof.
  unfold Candle.__init__. intros H.
  repeat peel H. cbv zeta in H. repeat peel H.
  injection H as <-. reflexivity.
Qed.

Lemma Candle_init_tags (r : json) (ins : string) (g : json) (c : Candle.t) :
  Candle.__init__ r ins g = Ok c -> Candle.instrument c = ins /\ Candle.gran c = g.
Proof.
  unfold Candle.__init__. intros H.
  repeat peel H. cbv zeta in H. repeat peel H.
  injection H as <-. split; reflexivity.
Qed.

Lemma as_parsed_derive (up : bool) (prev c : Candle.t) :
  Candle.as_parsed (derive up prev c) = Candle.as_parsed c.
Proof. reflexivity. Qed.

(** *** The parse loop *)

Lemma parse_loop_inv (records : list json) (ins : string) (g : json) :
  forall acc cs,
    parse_loop records ins g acc = Ok cs ->
    exists parsed,
      cs = acc ++ parsed /\
      Forall2 (fun r c => Candle.__init__ r ins g = Ok c) records parsed.
Proof.
  induction records as [|r rest IH]; simpl; intros acc cs H.
  - injection H as <-. exists []. split; [now rewrite app_nil_r | constructor].
  - peel H. apply IH in H as (parsed & -> & Hall).
    exists (x :: parsed). split.
    + now rewrite <- app_assoc.
    + now constructor.
Qed.

Lemma parse_loop_ok (records : list json) (ins : string) (g : json) :
  forall parsed acc,
    Forall2 (fun r c => Candle.__init__ r ins g = Ok c) records parsed ->
    parse_loop records ins g acc = Ok (acc ++ parsed).
Proof.
  induction records as [|r rest IH]; intros parsed acc Hall;
    inversion Hall as [|? c ? parsed' Hc Hrest]; subst; simpl.
  - now rewrite app_nil_r.
  - rewrite Hc. simpl. rewrite (IH parsed' _ Hrest).
    now rewrite <- app_assoc.
Qed.

Lemma parsed_fresh (records : list json) (ins : string) (g : json)
    (parsed : list Candle.t) :
  Forall2 (fun r c => Candle.__init__ r ins g = Ok c) records parsed ->
  Candle.as_parsed <$> parsed = parsed.
Proof.
  induction 1 as [|r c rs cs Hc _ IH]; simpl; [reflexivity |].
  rewrite (Candle_init_fresh _ _ _ _ Hc). now f_equal.
Qed.

(** *** One round of the derivation loop *)

Lemma derive_step_zero (cs : list Candle.t) : derive_step cs 0 = Ok cs.
Proof. reflexivity. Qed.

Lemma derive_step_pos (cs : list Candle.t) (i : nat) (ci cp : Candle.t) (up : bool) :
  (0 < i)%nat ->
  cs !! i = Some ci ->
  cs !! (i - 1)%nat = Some cp ->
  Decimal_gt (Candle.close ci) (Candle.close cp) = Ok up ->
  derive_step cs i = Ok (<[i := derive up cp ci]> cs).
Proof.
  intros Hi Hci Hcp Hup.
  pose proof (lookup_lt_Some _ _ _ Hci) as Hlt.
  unfold derive_step.
  destruct (Nat.eqb_spec i 0) as [->|_]; [lia |].
  rewrite (py_index_nat _ _ _ Hci), (py_index_pred _ _ _ Hi Hcp). simpl.
  rewrite Hup. simpl.
  assert (Hsame : (if up
                   then <[i := Candle.set_direction true false ci]> cs
                   else <[i := Candle.set_direction false true ci]> cs)
                  = <[i := Candle.set_direction up (negb up) ci]> cs)
    by (now destruct up).
  rewrite Hsame.
  rewrite (py_index_nat _ i (Candle.set_direction up (negb up) ci))
    by (now apply list_lookup_insert_eq).
  rewrite (py_index_pred _ i cp Hi)
    by (rewrite list_lookup_insert_ne by lia; exact Hcp).
  cbn [bind]. unfold derive.
  change (Candle.is_bull (Candle.set_direction up (negb up) ci)) with (Some up).
  destruct (py_eq_flag (Some up) (Candle.is_bull cp)); cbn [negb];
    now rewrite list_insert_insert_eq.
Qed.

Lemma derive_step_inv (cs cs' : list Candle.t) (i : nat) :
  (0 < i < length cs)%nat ->
  derive_step cs i = Ok cs' ->
  exists ci cp up,
    cs !! i = Some ci /\
    cs !! (i - 1)%nat = Some cp /\
    Decimal_gt (Candle.close ci) (Candle.close cp) = Ok up /\
    cs' = <[i := derive up cp ci]> cs.
Proof.
  intros [Hi Hlt] H.
  destruct (lookup_lt_is_Some_2 cs i Hlt) as [ci Hci].
  destruct (lookup_lt_is_Some_2 cs (i - 1)) as [cp Hcp]; [lia |].
  destruct (Decimal_gt (Candle.close ci) (Candle.close cp)) as [up|e] eqn:Hup.
  - rewrite (derive_step_pos _ _ _ _ _ Hi Hci Hcp Hup) in H.
    injection H as <-. now exists ci, cp, up.
  - exfalso. unfold derive_step in H.
    destruct (Nat.eqb_spec i 0) as [->|_]; [lia |].
    rewrite (py_index_nat _ _ _ Hci), (py_index_pred _ _ _ Hi Hcp) in H.
    simpl in H. rewrite Hup in H. discriminate.
Qed.

End Construction.

(** ** The derivation pass *)

Section Pass.
Context {L : PyLib}.

Import CandleCluster.

Lemma pass_inv_start (cs0 : list Candle.t) : pass_inv cs0 0 cs0.
Proof.
  split; [reflexivity | split]; [reflexivity | intros j c Hj; lia].
Qed.

Lemma pass_inv_length (cs0 cs : list Candle.t) (k : nat) :
  pass_inv cs0 k cs -> length cs = length cs0.
Proof.
  intros (Hmap & _ & _).
  rewrite <- (length_fmap Candle.as_parsed cs), Hmap. apply length_fmap.
Qed.

Lemma pass_inv_parsed (cs0 cs : list Candle.t) (k j : nat) (c c0 : Candle.t) :
  pass_inv cs0 k cs -> cs !! j = Some c -> cs0 !! j = Some c0 ->
  Candle.as_parsed c = Candle.as_parsed c0.
Proof.
  intros (Hmap & _ & _) Hc Hc0.
  assert (H : (Candle.as_parsed <$> cs) !! j = (Candle.as_parsed <$> cs0) !! j)
    by now rewrite Hmap.
  rewrite !list_lookup_fmap, Hc, Hc0 in H. simpl in H. congruence.
Qed.

Lemma pass_inv_step (cs0 cs cs' : list Candle.t) (k : nat) :
  pass_inv cs0 k cs -> (k < length cs)%nat ->
  derive_step cs k = Ok cs' ->
  pass_inv cs0 (S k) cs'.
Proof.
  intros (Hmap & Hrest & Hdone) Hlt Hstep.
  destruct k as [|k].
  - rewrite derive_step_zero in Hstep. injection Hstep as <-.
    split; [exact Hmap | split]; [intros j Hj; apply Hrest; lia | intros j c Hj; lia].
  - destruct (derive_step_inv cs cs' (S k)) as (ci & cp & up & Hci & Hcp & Hup & ->);
      [lia | exact Hstep |].
    split; [| split].
    + rewrite list_fmap_insert, as_parsed_derive, <- Hmap.
      apply list_insert_id. now rewrite list_lookup_fmap, Hci.
    + intros j Hj. rewrite list_lookup_insert_ne by lia. apply Hrest. lia.
    + intros j c Hj Hc.
      destruct (Nat.eq_dec j (S k)) as [->|Hne].
      * rewrite list_lookup_insert_eq in Hc by exact Hlt.
        injection Hc as <-.
        exists cp, up. rewrite list_lookup_insert_ne by lia.
        split; [exact Hcp | split]; [exact Hup | reflexivity].
      * rewrite list_lookup_insert_ne in Hc by lia.
        destruct (Hdone j c) as (prev & up' & Hprev & Hgt & Heq); [lia | exact Hc |].
        exists prev, up'. rewrite list_lookup_insert_ne by lia.
        split; [exact Hprev | split]; [exact Hgt | exact Heq].
Qed.

Lemma derive_loop_inv (cs0 : list Candle.t) :
  forall m k cs cs',
    pass_inv cs0 k cs -> (k + m = length cs0)%nat ->
    derive_loop (seq k m) cs = Ok cs' ->
    pass_inv cs0 (k + m) cs'.
Proof.
  induction m as [|m IH]; simpl; intros k cs cs' Hinv Hlen H.
  - injection H as <-. now rewrite Nat.add_0_r.
  - peel H. rewrite <- Nat.add_succ_comm.
    apply (IH (S k) x cs'); [| lia | exact H].
    apply (pass_inv_step cs0 cs x k Hinv); [| exact E].
    rewrite (pass_inv_length _ _ _ Hinv). lia.
Qed.

(** The loop succeeds as soon as every comparison of neighbouring closes does. *)
Lemma derive_loop_ok (cs0 : list Candle.t) :
  (forall i a b, cs0 !! i = Some a -> cs0 !! S i = Some b ->
                 exists up, Decimal_gt (Candle.close b) (Candle.close a) = Ok up) ->
  forall m k cs,
    pass_inv cs0 k cs -> (k + m = length cs0)%nat ->
    exists cs', derive_loop (seq k m) cs = Ok cs'.
Proof.
  intros Hcmp. induction m as [|m IH]; simpl; intros k cs Hinv Hlen.
  - now exists cs.
  - pose proof (pass_inv_length _ _ _ Hinv) as Hl.
    assert (Hstep : exists cs1, derive_step cs k = Ok cs1).
    { destruct k as [|k]; [exists cs; apply derive_step_zero |].
      destruct (lookup_lt_is_Some_2 cs (S k)) as [ci Hci]; [lia |].
      destruct (lookup_lt_is_Some_2 cs k) as [cp Hcp]; [lia |].
      destruct (lookup_lt_is_Some_2 cs0 (S k)) as [ci0 Hci0]; [lia |].
      destruct (lookup_lt_is_Some_2 cs0 k) as [cp0 Hcp0]; [lia |].
      destruct (Hcmp k cp0 ci0 Hcp0 Hci0) as [up Hup].
      exists (<[S k := derive up cp ci]> cs).
      apply derive_step_pos; [lia | exact Hci | |].
      - now replace (S k - 1)%nat with k by lia.
      - change (Candle.close ci) with (Candle.close (Candle.as_parsed ci)).
        change (Candle.close cp) with (Candle.close (Candle.as_parsed cp)).
        rewrite (pass_inv_parsed _ _ _ _ _ _ Hinv Hci Hci0).
        rewrite (pass_inv_parsed _ _ _ _ _ _ Hinv Hcp Hcp0).
        exact Hup. }
    destruct Hstep as [cs1 Hstep]. rewrite Hstep. simpl.
    apply (IH (S k) cs1); [| lia].
    apply (pass_inv_step cs0 cs cs1 k Hinv); [lia | exact Hstep].
Qed.

End Pass.

(** ** The constructor *)

Section Constructor.
Context {L : PyLib}.

Import CandleCluster.

(** What a successful construction went through. *)
Lemma init_inv (candsjson : string) (c : t) :
  __init__ candsjson = Ok c ->
  exists data ins raw records parsed,
    json_loads candsjson = Ok data /\
    py_getitem data "granularity" = Ok (gran c) /\
    py_getitem data "instrument" = Ok ins /\
    py_replace_slash ins = Ok (instrument c) /\
    py_getitem data "candles" = Ok raw /\
    py_iter raw = Ok records /\
    Forall2 (fun r p => Candle.__init__ r (instrument c) (gran c) = Ok p)
      records parsed /\
    pass_inv parsed (length parsed) (candles c) /\
    standard_deviation (map Candle.close (py_slice_from (-30) (candles c)))
      = Ok (std c).
Proof.
  unfold __init__. intros H.
  apply bind_Ok in H as (data & Hdata & H).
  apply bind_Ok in H as (g & Hg & H).
  apply bind_Ok in H as (ins & Hins & H).
  apply bind_Ok in H as (i & Hi & H).
  apply bind_Ok in H as (raw & Hraw & H).
  apply bind_Ok in H as (records & Hrec & H).
  apply bind_Ok in H as (parsed & Hparsed & H).
  apply bind_Ok in H as (cs & Hcs & H).
  apply bind_Ok in H as (d & Hd & H).
  injection H as <-. simpl.
  apply parse_loop_inv in Hparsed as (parsed' & -> & Hall). simpl in *.
  exists data, ins, raw, records, parsed'.
  repeat (split; [assumption |]).
  split; [| exact Hd].
  apply (derive_loop_inv parsed' (length parsed') 0 parsed' cs);
    [apply pass_inv_start | reflexivity | exact Hcs].
Qed.

(** The first candle is as [Candle.__init__] built it. *)
Lemma init_first (candsjson : string) (c : t) (c0 : Candle.t) :
  __init__ candsjson = Ok c ->
  candles c !! 0%nat = Some c0 ->
  Candle.as_parsed c0 = c0.
Proof.
  intros Hinit Hc0.
  apply init_inv in Hinit
    as (data & ins & raw & records & parsed & _ & _ & _ & _ & _ & _ & Hall & Hinv & _).
  destruct Hinv as (_ & Hrest & _).
  rewrite (Hrest 0%nat) in Hc0 by (now left).
  assert (Hfresh : Candle.as_parsed c0 = c0).
  { pose proof (parsed_fresh _ _ _ _ Hall) as Hf.
    assert (H : (Candle.as_parsed <$> parsed) !! 0%nat = Some c0) by now rewrite Hf.
    rewrite list_lookup_fmap, Hc0 in H. simpl in H. congruence. }
  exact Hfresh.
Qed.

(** A later candle is [derive] of its close comparison and its predecessor. *)
Lemma init_later (candsjson : string) (c : t) (i : nat) (ci cp : Candle.t) :
  __init__ candsjson = Ok c ->
  (0 < i)%nat ->
  candles c !! i = Some ci ->
  candles c !! (i - 1)%nat = Some cp ->
  exists up,
    Decimal_gt (Candle.close ci) (Candle.close cp) = Ok up /\
    ci = derive up cp (Candle.as_parsed ci).
Proof.
  intros Hinit Hi Hci Hcp.
  apply init_inv in Hinit
    as (data & ins & raw & records & parsed & _ & _ & _ & _ & _ & _ & _ & Hinv & _).
  pose proof (pass_inv_length _ _ _ Hinv) as Hlen.
  pose proof (lookup_lt_Some _ _ _ Hci) as Hlt.
  destruct Hinv as (_ & _ & Hdone).
  destruct (Hdone i ci) as (prev & up & Hprev & Hgt & Heq); [lia | exact Hci |].
  assert (prev = cp) as -> by congruence.
  now exists up.
Qed.

(** C6. In every cluster the constructor returns, the first candle still
    has [is_bull], [is_bear] and [reversal] at [None]: the derivation
    pass skips index 0. *)
Theorem first_candle_unset (candsjson : string) (c : t) (c0 : Candle.t) :
  __init__ candsjson = Ok c ->
  candles c !! 0%nat = Some c0 ->
  Candle.is_bull c0 = None /\ Candle.is_bear c0 = None /\
  Candle.reversal c0 = None.
Proof.
  intros Hinit Hc0.
  rewrite <- (init_first _ _ _ Hinit Hc0). repeat split.
Qed.

(** C2. In every cluster the constructor returns, at every index [i > 0]:
    [is_bull] is the outcome of [close[i] > close[i-1]], [is_bear] is its
    negation, and [reversal] is true exactly when [is_bull[i]] and
    [is_bull[i-1]] are not equal. *)
Theorem direction_and_reversal (candsjson : string) (c : t) (i : nat)
    (ci cp : Candle.t) :
  __init__ candsjson = Ok c ->
  (0 < i)%nat ->
  candles c !! i = Some ci ->
  candles c !! (i - 1)%nat = Some cp ->
  exists up,
    Decimal_gt (Candle.close ci) (Candle.close cp) = Ok up /\
    Candle.is_bull ci = Some up /\
    Candle.is_bear ci = Some (negb up) /\
    Candle.reversal ci
      = Some (negb (py_eq_flag (Candle.is_bull ci) (Candle.is_bull cp))).
Proof.
  intros Hinit Hi Hci Hcp.
  destruct (init_later _ _ _ _ _ Hinit Hi Hci Hcp) as (up & Hgt & Heq).
  exists up. split; [exact Hgt |].
  rewrite Heq. repeat split.
Qed.

(** C9. In every cluster of at least two candles, the second candle's
    [reversal] is [True], whatever the closes: the first candle's
    [is_bull] is [None], which equals neither [True] nor [False]. *)
Theorem second_candle_reversal (candsjson : string) (c : t) (c1 : Candle.t) :
  __init__ candsjson = Ok c ->
  candles c !! 1%nat = Some c1 ->
  Candle.reversal c1 = Some true.
Proof.
  intros Hinit Hc1.
  pose proof (lookup_lt_Some _ _ _ Hc1) as Hlt.
  destruct (lookup_lt_is_Some_2 (candles c) 0) as [c0 Hc0]; [lia |].
  pose proof (init_first _ _ _ Hinit Hc0) as Hfresh.
  destruct (init_later _ _ 1 c1 c0 Hinit) as (up & _ & Heq);
    [lia | exact Hc1 | exact Hc0 |].
  rewrite Heq, <- Hfresh. reflexivity.
Qed.

(** C7. The [std] of every cluster the constructor returns is what
    [standard_deviation] gives for the closes of the last [min(30, N)]
    candles, [N] being the number of candles. *)
Theorem rolling_deviation (candsjson : string) (c : t) :
  __init__ candsjson = Ok c ->
  standard_deviation
    (map Candle.close
       (last_n (Nat.min 30 (length (candles c))) (candles c)))
  = Ok (std c).
Proof.
  intros Hinit.
  apply init_inv in Hinit
    as (data & ins & raw & records & parsed & _ & _ & _ & _ & _ & _ & _ & _ & Hstd).
  rewrite <- (py_slice_last 29). exact Hstd.
Qed.

End Constructor.

(** ** Order and number of the candles *)

Section Order.
Context {L : PyLib}.

Import CandleCluster.

Lemma py_slice_from_map {A B : Type} (f : A -> B) (start : Z) (l : list A) :
  map f (py_slice_from start l) = py_slice_from start (map f l).
Proof.
  unfold py_slice_from. cbv zeta. rewrite length_map.
  now rewrite skipn_map.
Qed.

Lemma pass_inv_closes (cs0 cs : list Candle.t) (k : nat) :
  pass_inv cs0 k cs -> map Candle.close cs = map Candle.close cs0.
Proof.
  intros (Hmap & _ & _).
  assert (H : forall l : list Candle.t,
             map Candle.close l = map Candle.close (Candle.as_parsed <$> l)).
  { induction l as [|x l IH]; simpl; [reflexivity | now f_equal]. }
  now rewrite (H cs), (H cs0), Hmap.
Qed.

(** C5. Constructing a cluster from a valid payload succeeds, and the
    cluster has as many candles as the payload's [candles] array has
    entries, the candle at each position being the one built from the
    entry at that position.  (The count [N] may be any, so also [N >= 1].) *)
Theorem candles_follow_payload (candsjson : string) (records : list json) :
  valid_payload candsjson records ->
  exists c,
    __init__ candsjson = Ok c /\
    length (candles c) = length records /\
    forall i r, records !! i = Some r ->
      exists ci, candles c !! i = Some ci /\
                 Candle.__init__ r (instrument c) (gran c)
                 = Ok (Candle.as_parsed ci).
Proof.
  intros (data & g & ins & parsed & Hloads & Hg & Hins & Hc & Hall & Hcmp & d & Hd).
  destruct (derive_loop_ok parsed Hcmp (length parsed) 0 parsed
              (pass_inv_start parsed) eq_refl) as [cs Hcs].
  pose proof (derive_loop_inv parsed (length parsed) 0 parsed cs
                (pass_inv_start parsed) eq_refl Hcs) as Hinv.
  simpl in Hinv.
  exists {| candledata := data; candles := cs; ind := 0; gran := g;
            instrument := replace_slash ins; std := d |}.
  split; [| split].
  - unfold __init__. rewrite Hloads. cbn [bind]. rewrite Hg. cbn [bind].
    rewrite Hins. cbn [bind py_replace_slash]. rewrite Hc. cbn [bind py_iter].
    rewrite (parse_loop_ok _ _ _ parsed [] Hall). cbn [bind app].
    rewrite Hcs. cbn [bind].
    rewrite py_slice_from_map, (pass_inv_closes _ _ _ Hinv), <- py_slice_from_map.
    rewrite Hd. reflexivity.
  - simpl. rewrite (pass_inv_length _ _ _ Hinv).
    symmetry. exact (Forall2_length _ _ _ Hall).
  - simpl. intros i r Hr.
    destruct (Forall2_lookup_l _ _ _ _ _ Hall Hr) as (p & Hp & Hinit).
    destruct (lookup_lt_is_Some_2 cs i) as [ci Hci].
    { rewrite (pass_inv_length _ _ _ Hinv). exact (lookup_lt_Some _ _ _ Hp). }
    exists ci. split; [exact Hci |].
    rewrite (pass_inv_parsed _ _ _ _ _ _ Hinv Hci Hp).
    rewrite (Candle_init_fresh _ _ _ _ Hinit). exact Hinit.
Qed.

End Order.

(** ** Iteration *)

Section Iteration.
Context {L : PyLib}.

Import CandleCluster.

(** Draining an iterator that stands at [pos] with enough fuel hands over
    the rest of the list. *)
Lemma drain_rest (l : list Candle.t) :
  forall fuel pos seen,
    (length l - pos < fuel)%nat ->
    drain fuel {| it_list := l; it_pos := pos |} seen = Some (seen ++ drop pos l).
Proof.
  induction fuel as [|fuel IH]; intros pos seen Hfuel; [lia |].
  simpl. unfold list_iterator_next. simpl.
  destruct (l !! pos) as [c|] eqn:Hc.
  - pose proof (lookup_lt_Some _ _ _ Hc) as Hlt.
    rewrite IH by lia.
    rewrite (drop_S _ _ _ Hc), <- app_assoc. reflexivity.
  - apply lookup_ge_None_1 in Hc.
    rewrite drop_ge by exact Hc. now rewrite app_nil_r.
Qed.

Lemma traverse_all (self : t) : traverse self = (self, Some (candles self)).
Proof.
  unfold traverse, __iter__, py_iter_list. cbn [it_list it_pos].
  rewrite drain_rest by lia. reflexivity.
Qed.

Lemma visited_all (self : t) : visited self = candles self.
Proof. unfold visited. now rewrite traverse_all. Qed.

(** Moving the cursor with [__next__] changes nothing for a traversal. *)
Lemma traverse_ignores_cursor (self : t) :
  snd (traverse (fst (__next__ self))) = Some (candles self).
Proof. now rewrite traverse_all. Qed.

(** C8. Two traversals of a cluster, one after the other, each produce
    the whole candle sequence, every candle once and in order, and leave
    the cluster as it was; the second is not affected by the first. *)
Theorem traversal_restartable (self : t) :
  let (self1, first) := traverse self in
  let (self2, second) := traverse self1 in
  first = Some (candles self) /\ second = Some (candles self) /\ self2 = self.
Proof.
  rewrite traverse_all. rewrite traverse_all. repeat split.
Qed.

End Iteration.

(** ** Concatenation *)

Section Concatenation.
Context {L : PyLib}.

Import CandleCluster.

(** C3. Adding two clusters whose instruments differ raises a
    [ClusterConcatException] built from both instrument strings, whatever
    candles the clusters hold. *)
Theorem concat_instrument_mismatch (a b : t) :
  instrument a <> instrument b ->
  exists e,
    __add__ a b = Raise e /\
    exn_class e = "ClusterConcatException"%string /\
    exn_args e = [instrument a; instrument b].
Proof.
  intros Hne. exists (ClusterConcatException (instrument a) (instrument b)).
  split; [| split; reflexivity].
  unfold __add__, add_body.
  destruct (String.eqb_spec (instrument a) (instrument b)) as [Heq|_];
    [contradiction | reflexivity].
Qed.

(** When [self] ends before [b] starts, the local [result] is [self]
    followed by the candles of [b]; it is not what the call returns. *)
Lemma add_body_self_first (a b : t) (s0 bl b0 sl : Candle.t) :
  instrument a = instrument b ->
  __getitem__ a 0 = Ok s0 -> __getitem__ b (-1) = Ok bl ->
  datetime_gt (Candle.time s0) (Candle.time bl) = false ->
  __getitem__ b 0 = Ok b0 -> __getitem__ a (-1) = Ok sl ->
  datetime_gt (Candle.time b0) (Candle.time sl) = true ->
  add_body a b
  = Ok {| local_result := Some (append_all a (candles b)); returned := None |}.
Proof.
  intros Hins Hs0 Hbl Hgt1 Hb0 Hsl Hgt2. unfold add_body.
  rewrite Hins, String.eqb_refl. cbn [negb].
  rewrite Hs0, Hbl. cbn [bind]. rewrite Hgt1, Hb0, Hsl. cbn [bind].
  rewrite Hgt2. unfold deepcopy. now rewrite visited_all.
Qed.

(** When [b] ends before [self] starts, it is [b] followed by the candles
    of [self]. *)
Lemma add_body_b_first (a b : t) (s0 bl : Candle.t) :
  instrument a = instrument b ->
  __getitem__ a 0 = Ok s0 -> __getitem__ b (-1) = Ok bl ->
  datetime_gt (Candle.time s0) (Candle.time bl) = true ->
  add_body a b
  = Ok {| local_result := Some (append_all b (candles a)); returned := None |}.
Proof.
  intros Hins Hs0 Hbl Hgt. unfold add_body.
  rewrite Hins, String.eqb_refl. cbn [negb].
  rewrite Hs0, Hbl. cbn [bind]. rewrite Hgt.
  unfold deepcopy. now rewrite visited_all.
Qed.

(** No call of [__add__] returns a cluster: its [return] carries no value. *)
Lemma add_returns_none (a b : t) (r : option t) :
  __add__ a b = Ok r -> r = None.
Proof.
  unfold __add__, add_body. intros H.
  destruct (negb _); [discriminate |].
  destruct (__getitem__ a 0) as [s0|e]; cbn [bind] in H; [| discriminate].
  destruct (__getitem__ b (-1)) as [bl|e]; cbn [bind] in H; [| discriminate].
  destruct (datetime_gt _ _); cbn [bind returned] in H;
    [now injection H as <- |].
  destruct (__getitem__ b 0) as [b0|e]; cbn [bind] in H; [| discriminate].
  destruct (__getitem__ a (-1)) as [sl|e]; cbn [bind] in H; [| discriminate].
  destruct (datetime_gt _ _); cbn [bind returned] in H; now injection H as <-.
Qed.

End Concatenation.

(** ** history *)

Section History.
Context {L : PyLib}.

Import CandleCluster.

Lemma instance_attr_unknown (c : Candle.t) (name : string) :
  Candle.is_attribute name = false -> Candle.instance_attr c name = None.
Proof.
  unfold Candle.is_attribute, Candle.attribute_names. cbn [existsb].
  intros H.
  repeat match type of H with
         | (_ || _) = false => apply orb_false_elim in H; destruct H as [?E H]
         end.
  unfold Candle.instance_attr.
  repeat match goal with
         | E : String.eqb name _ = false |- _ => rewrite E; clear E
         end.
  reflexivity.
Qed.

Lemma is_attribute_nonempty (name : string) :
  Candle.is_attribute name = true -> name <> ""%string.
Proof. intros H ->. discriminate H. Qed.

Lemma getattr_unknown (c : Candle.t) (name : string) :
  Candle.recognized name = false ->
  Candle.getattr c (Some name) = Raise (AttributeError name).
Proof.
  unfold Candle.recognized. intros H.
  apply orb_false_elim in H as [Hattr Hinh].
  unfold Candle.getattr.
  now rewrite (instance_attr_unknown c name Hattr), Hinh.
Qed.

Lemma getattr_raises (c : Candle.t) (name : string) (e : exn) :
  Candle.getattr c (Some name) = Raise e -> e = AttributeError name.
Proof.
  unfold Candle.getattr.
  destruct (Candle.instance_attr c name); [discriminate |].
  destruct (inherited_attr name); [discriminate | congruence].
Qed.

Lemma truthy_nonempty (name : string) :
  name <> ""%string -> truthy (Some name) = true.
Proof.
  intros H. unfold truthy.
  destruct (String.eqb_spec name ""); [contradiction | reflexivity].
Qed.

(** With [valuex] absent and [valuey] a non-empty string, neither branch
    of [history] is taken. *)
Lemma history_only_y (self : t) (valuey : string) :
  valuey <> ""%string -> history self None (Some valuey) = Ok HNone.
Proof.
  intros H. unfold history.
  rewrite (truthy_nonempty valuey H). reflexivity.
Qed.

(** C10. [history] called with [valuex] absent and [valuey] the name of a
    Candle attribute returns [None], for every cluster: no sequence and
    no error. *)
Theorem history_second_field_only (self : t) (valuey : string) :
  Candle.is_attribute valuey = true ->
  history self None (Some valuey) = Ok HNone.
Proof.
  intros H. apply history_only_y. now apply is_attribute_nonempty.
Qed.

(** C4, as amended. On a cluster with at least one candle, a field name
    that [getattr] does not resolve makes [history] raise the built-in
    [AttributeError]: carrying that name when it is the only argument or
    the first of two non-empty ones, and of that class when it is the
    second of two non-empty ones. *)
Theorem history_unknown_attribute (self : t) (name other : string) :
  candles self <> [] ->
  Candle.recognized name = false ->
  history self (Some name) None = Raise (AttributeError name) /\
  (name <> ""%string -> other <> ""%string ->
   history self (Some name) (Some other) = Raise (AttributeError name) /\
   raises (history self (Some other) (Some name)) "AttributeError").
Proof.
  intros Hne Hun. unfold history.
  destruct (candles self) as [|c rest]; [contradiction |].
  split.
  - replace (truthy (Some name) && truthy None) with false
      by (now destruct (truthy (Some name))).
    cbn [truthy negb history_list].
    now rewrite (getattr_unknown c name Hun).
  - intros Hname Hother.
    rewrite (truthy_nonempty name Hname), (truthy_nonempty other Hother).
    cbn [andb history_pairs]. split.
    + now rewrite (getattr_unknown c name Hun).
    + destruct (Candle.getattr c (Some other)) as [v|e] eqn:Hv; cbn [bind].
      * rewrite (getattr_unknown c name Hun). cbn [bind].
        exists (AttributeError name). now split.
      * apply getattr_raises in Hv as ->.
        exists (AttributeError other). now split.
Qed.

End History.

(** ** The model on the sample payloads *)

Section OnSamples.

Import CandleCluster Samples.

Lemma cluster_A_built : __init__ payload_A = Ok cluster_A.
Proof. reflexivity. Qed.

Lemma cluster_B_built : __init__ payload_B = Ok cluster_B.
Proof. reflexivity. Qed.

Lemma cluster_C_built : __init__ payload_C = Ok cluster_C.
Proof. reflexivity. Qed.

Lemma cluster_one_built : __init__ payload_one = Ok cluster_one.
Proof. reflexivity. Qed.

Example seconds_A : seconds (candles cluster_A) = [1; 2; 3]%Z.
Proof. reflexivity. Qed.

Example seconds_B : seconds (candles cluster_B) = [4; 5; 6]%Z.
Proof. reflexivity. Qed.

Example instruments_AB :
  instrument cluster_A = "USD_CAD"%string /\ instrument cluster_B = "USD_CAD"%string.
Proof. split; reflexivity. Qed.

(** C1, on the code. [A] holds candles at t = 1, 2, 3 and [B] at
    t = 4, 5, 6, for the same instrument.  In either operand order
    [__add__] binds its local [result] to a cluster whose candles stand at
    t = 1, ..., 6 and then returns [None]. *)
Theorem concat_returns_nothing :
  (exists r,
      add_body cluster_A cluster_B
      = Ok {| local_result := Some r; returned := None |} /\
      seconds (candles r) = [1; 2; 3; 4; 5; 6]%Z) /\
  (exists r,
      add_body cluster_B cluster_A
      = Ok {| local_result := Some r; returned := None |} /\
      seconds (candles r) = [1; 2; 3; 4; 5; 6]%Z) /\
  __add__ cluster_A cluster_B = Ok None /\
  __add__ cluster_B cluster_A = Ok None.
Proof.
  split; [| split; [| split]].
  - eexists. split; reflexivity.
  - eexists. split; reflexivity.
  - reflexivity.
  - reflexivity.
Qed.

(** C4 as stated fails: on a cluster of three candles, [history('bogus')]
    raises, but not an [UnknownAttributeError]. *)
Lemma history_no_unknown_attribute_error :
  ~ raises (history cluster_A (Some "bogus"%string) None) "UnknownAttributeError".
Proof.
  intros (e & He & Hclass).
  assert (Hev : history cluster_A (Some "bogus"%string) None
                = Raise (AttributeError "bogus")) by reflexivity.
  rewrite Hev in He. injection He as <-. discriminate Hclass.
Qed.

End OnSamples.

(** ** The theorems at the sample payloads *)

Section Witnesses.

Import CandleCluster Samples.

(** Closes 1.0 then 1.0: the tie makes the second candle a bear. *)
Example tie_is_bear :
  exists c1, candles cluster_A !! 1%nat = Some c1 /\
             Candle.is_bull c1 = Some false /\ Candle.is_bear c1 = Some true.
Proof. eexists. split; [reflexivity | split; reflexivity]. Qed.

(** A single candle deviates from itself by nothing. *)
Example deviation_of_one : std cluster_one = Ref.SqrtOf 0%Q.
Proof. reflexivity. Qed.

Lemma direction_and_reversal_witness :
  exists ci cp,
    candles cluster_A !! 1%nat = Some ci /\
    candles cluster_A !! 0%nat = Some cp /\
    exists up,
      Decimal_gt (Candle.close ci) (Candle.close cp) = Ok up /\
      Candle.is_bull ci = Some up /\
      Candle.is_bear ci = Some (negb up) /\
      Candle.reversal ci
        = Some (negb (py_eq_flag (Candle.is_bull ci) (Candle.is_bull cp))).
Proof.
  eexists _, _. split; [reflexivity |]. split; [reflexivity |].
  apply (direction_and_reversal payload_A cluster_A 1);
    [exact cluster_A_built | lia | reflexivity | reflexivity].
Defined.

Lemma first_candle_unset_witness :
  exists c0,
    candles cluster_A !! 0%nat = Some c0 /\
    Candle.is_bull c0 = None /\ Candle.is_bear c0 = None /\
    Candle.reversal c0 = None.
Proof.
  eexists. split; [reflexivity |].
  apply (first_candle_unset payload_A cluster_A);
    [exact cluster_A_built | reflexivity].
Defined.

Lemma second_candle_reversal_witness :
  exists c1,
    candles cluster_B !! 1%nat = Some c1 /\ Candle.reversal c1 = Some true.
Proof.
  eexists. split; [reflexivity |].
  apply (second_candle_reversal payload_B cluster_B);
    [exact cluster_B_built | reflexivity].
Defined.

Lemma rolling_deviation_witness :
  standard_deviation
    (map Candle.close (last_n (Nat.min 30 3) (candles cluster_A)))
  = Ok (std cluster_A).
Proof.
  apply (rolling_deviation payload_A cluster_A). exact cluster_A_built.
Defined.

Lemma payload_A_valid : valid_payload (L := Ref.lib) payload_A entries_A.
Proof.
  unfold valid_payload.
  eexists _, _, _, (Candle.as_parsed <$> candles cluster_A).
  split; [vm_compute; reflexivity |].
  split; [vm_compute; reflexivity |].
  split; [vm_compute; reflexivity |].
  split; [vm_compute; reflexivity |].
  split; [| split].
  - repeat (constructor; [reflexivity |]). constructor.
  - intros i a b _ _. simpl. unfold Ref.Decimal_gt.
    destruct (Ref.align _ _) as [[ca cb] e]. eexists. reflexivity.
  - eexists. vm_compute. reflexivity.
Qed.

Lemma candles_follow_payload_witness :
  valid_payload (L := Ref.lib) payload_A entries_A /\
  exists c : CandleCluster.t (L := Ref.lib),
    __init__ payload_A = Ok c /\
    length (candles c) = length entries_A /\
    forall (i : nat) r, entries_A !! i = Some r ->
      exists ci, candles c !! i = Some ci /\
                 Candle.__init__ r (instrument c) (gran c)
                 = Ok (Candle.as_parsed ci).
Proof.
  split; [exact payload_A_valid |].
  apply (candles_follow_payload payload_A entries_A). exact payload_A_valid.
Defined.

Lemma concat_instrument_mismatch_witness :
  instrument cluster_A <> instrument cluster_C /\
  exists e,
    __add__ cluster_A cluster_C = Raise e /\
    exn_class e = "ClusterConcatException"%string /\
    exn_args e = ["USD_CAD"; "EUR_USD"]%string.
Proof.
  assert (Hne : instrument cluster_A <> instrument cluster_C)
    by (intros H; discriminate H).
  split; [exact Hne |].
  apply (concat_instrument_mismatch cluster_A cluster_C). exact Hne.
Defined.

Lemma history_unknown_attribute_witness :
  history cluster_A (Some "bogus"%string) None = Raise (AttributeError "bogus") /\
  ("bogus"%string <> ""%string -> "close"%string <> ""%string ->
   history cluster_A (Some "bogus"%string) (Some "close"%string)
   = Raise (AttributeError "bogus") /\
   raises (history cluster_A (Some "close"%string) (Some "bogus"%string))
     "AttributeError").
Proof.
  apply (history_unknown_attribute cluster_A "bogus" "close").
  - intros H. discriminate H.
  - reflexivity.
Defined.

Lemma history_second_field_only_witness :
  history cluster_A None (Some "close"%string) = Ok HNone.
Proof.
  apply (history_second_field_only cluster_A "close"). reflexivity.
Defined.

End Witnesses.

(** * Further properties of the code *)

(** ** What the constructor keeps *)

Section Kept.
Context {L : PyLib}.

Import CandleCluster.

(** The candle at a position, its derived attributes set aside, is the
    one [Candle.__init__] builds from the entry at that position. *)
Lemma init_entry (candsjson : string) (c : t) (data : json)
    (records : list json) (i : nat) (r : json) (ci : Candle.t) :
  __init__ candsjson = Ok c ->
  json_loads candsjson = Ok data ->
  py_getitem data "candles" = Ok (JArr records) ->
  records !! i = Some r ->
  candles c !! i = Some ci ->
  Candle.__init__ r (instrument c) (gran c) = Ok (Candle.as_parsed ci).
Proof.
  intros Hinit Hdata Hraw Hr Hci.
  apply init_inv in Hinit
    as (data' & ins & raw & records' & parsed
        & Hdata' & _ & _ & _ & Hraw' & Hiter & Hall & Hinv & _).
  assert (data' = data) as -> by congruence.
  assert (raw = JArr records) as -> by congruence.
  injection Hiter as <-.
  destruct (Forall2_lookup_l _ _ _ _ _ Hall Hr) as (p & Hp & Hbuilt).
  rewrite (pass_inv_parsed _ _ _ _ _ _ Hinv Hci Hp).
  now rewrite (Candle_init_fresh _ _ _ _ Hbuilt).
Qed.

(** Every position of the cluster has an entry behind it. *)
Lemma init_built_from (candsjson : string) (c : t) (i : nat) (ci : Candle.t) :
  __init__ candsjson = Ok c ->
  candles c !! i = Some ci ->
  exists r, Candle.__init__ r (instrument c) (gran c) = Ok (Candle.as_parsed ci).
Proof.
  intros Hinit Hci.
  apply init_inv in Hinit
    as (data & ins & raw & records & parsed & _ & _ & _ & _ & _ & _ & Hall & Hinv & _).
  destruct (lookup_lt_is_Some_2 parsed i) as [p Hp].
  { rewrite <- (pass_inv_length _ _ _ Hinv). exact (lookup_lt_Some _ _ _ Hci). }
  destruct (Forall2_lookup_r _ _ _ _ _ Hall Hp) as (r & _ & Hbuilt).
  exists r. rewrite (pass_inv_parsed _ _ _ _ _ _ Hinv Hci Hp).
  now rewrite (Candle_init_fresh _ _ _ _ Hbuilt).
Qed.

Lemma Candle_init_displacements (r : json) (ins : string) (g : json) (c : Candle.t) :
  Candle.__init__ r ins g = Ok c ->
  Decimal_sub prec (Candle.close c) (Candle.open c) = Ok (Candle.oc_displacement c) /\
  Decimal_sub prec (Candle.high c) (Candle.low c) = Ok (Candle.total_displacement c).
Proof.
  unfold Candle.__init__. intros H.
  repeat peel H. cbv zeta in H. repeat peel H.
  injection H as <-. split; assumption.
Qed.

Lemma Candle_init_complete (r : json) (ins : string) (g : json) (c : Candle.t)
    (v : json) :
  Candle.__init__ r ins g = Ok c ->
  py_getitem r "complete" = Ok v ->
  Candle.complete c = py_eq_str v "true".
Proof.
  unfold Candle.__init__. intros H Hv.
  repeat peel H. cbv zeta in H. repeat peel H.
  injection H as <-. cbn [Candle.complete].
  match goal with
  | E : py_getitem r "complete" = Ok ?w |- _ =>
      assert (w = v) as -> by congruence
  end.
  now destruct (py_eq_str v "true").
Qed.

Lemma Candle_init_time (r : json) (ins : string) (g : json) (c : Candle.t)
    (text : string) :
  Candle.__init__ r ins g = Ok c ->
  py_getitem r "time" = Ok (JStr text) ->
  strptime (str_drop_last 11 text) time_format = Ok (Candle.time c).
Proof.
  unfold Candle.__init__. intros H Ht.
  repeat peel H. cbv zeta in H. repeat peel H.
  injection H as <-. cbn [Candle.time].
  match goal with
  | E : py_getitem r "time" = Ok ?w |- _ =>
      assert (w = JStr text) as -> by congruence
  end.
  match goal with
  | E : Ok (str_drop_last 11 text) = Ok ?w |- _ => injection E as <-
  end.
  assumption.
Qed.

(** X1. Every candle of a constructed cluster carries the cluster's own
    instrument and granularity. *)
Theorem candles_share_tags (candsjson : string) (c : t) (i : nat) (ci : Candle.t) :
  __init__ candsjson = Ok c ->
  candles c !! i = Some ci ->
  Candle.instrument ci = instrument c /\ Candle.gran ci = gran c.
Proof.
  intros Hinit Hci.
  destruct (init_built_from _ _ _ _ Hinit Hci) as (r & Hbuilt).
  exact (Candle_init_tags _ _ _ _ Hbuilt).
Qed.

(** X3. In a constructed cluster every candle's [oc_displacement] is
    [close - open] and its [total_displacement] is [high - low], as the
    decimal subtraction under the module's precision gives them; the
    derivation pass does not disturb them. *)
Theorem displacements_kept (candsjson : string) (c : t) (i : nat) (ci : Candle.t) :
  __init__ candsjson = Ok c ->
  candles c !! i = Some ci ->
  Decimal_sub prec (Candle.close ci) (Candle.open ci)
    = Ok (Candle.oc_displacement ci) /\
  Decimal_sub prec (Candle.high ci) (Candle.low ci)
    = Ok (Candle.total_displacement ci).
Proof.
  intros Hinit Hci.
  destruct (init_built_from _ _ _ _ Hinit Hci) as (r & Hbuilt).
  exact (Candle_init_displacements _ _ _ _ Hbuilt).
Qed.

End Kept.

(** ** How the payload is read *)

Section Reading.
Context {L : PyLib}.

Import CandleCluster.

Lemma replace_slash_length (s : string) :
  String.length (replace_slash s) = String.length s.
Proof. induction s as [|a s IH]; simpl; [reflexivity | now rewrite IH]. Qed.

Lemma replace_slash_get (s : string) :
  forall n,
    String.get n (replace_slash s)
    = option_map (fun a => if Ascii.eqb a "/" then "_"%char else a) (String.get n s).
Proof.
  induction s as [|a s IH]; intros n; simpl; [reflexivity |].
  destruct n as [|n]; [reflexivity | apply IH].
Qed.

(** X2. The instrument of a constructed cluster is the payload's
    instrument string, character for character, with every [/] turned into
    [_]: it has the same length and holds no [/]. *)
Theorem instrument_normalised (candsjson : string) (c : t) :
  __init__ candsjson = Ok c ->
  exists data raw,
    json_loads candsjson = Ok data /\
    py_getitem data "instrument" = Ok (JStr raw) /\
    String.length (instrument c) = String.length raw /\
    (forall n, String.get n (instrument c) <> Some "/"%char) /\
    (forall n a, String.get n raw = Some a ->
       String.get n (instrument c)
       = Some (if Ascii.eqb a "/" then "_"%char else a)).
Proof.
  intros Hinit.
  apply init_inv in Hinit
    as (data & ins & raw & records & parsed & Hdata & _ & Hins & Hrep & _).
  destruct ins; try discriminate Hrep.
  injection Hrep as Hrep. rewrite <- Hrep.
  exists data, s. split; [exact Hdata | split; [exact Hins |]].
  split; [apply replace_slash_length | split].
  - intros n. rewrite replace_slash_get.
    destruct (String.get n s) as [a|]; simpl; [| discriminate].
    destruct (Ascii.eqb_spec a "/") as [->|Hne]; intros H; injection H as H;
      [discriminate H | contradiction].
  - intros n a Ha. now rewrite replace_slash_get, Ha.
Qed.

Lemma py_eq_str_true (v : json) (s : string) :
  py_eq_str v s = true <-> v = JStr s.
Proof.
  destruct v; simpl; try (split; [discriminate | discriminate]).
  rewrite String.eqb_eq. split; [now intros -> | now intros [= ->]].
Qed.

(** X4. A candle is [complete] exactly when the [complete] member of its
    entry is the string [true]; any other value, the JSON boolean [true]
    included, gives [False]. *)
Theorem complete_only_for_the_string (candsjson : string) (c : t) (data : json)
    (records : list json) (i : nat) (r v : json) (ci : Candle.t) :
  __init__ candsjson = Ok c ->
  json_loads candsjson = Ok data ->
  py_getitem data "candles" = Ok (JArr records) ->
  records !! i = Some r ->
  candles c !! i = Some ci ->
  py_getitem r "complete" = Ok v ->
  Candle.complete ci = true <-> v = JStr "true".
Proof.
  intros Hinit Hdata Hraw Hr Hci Hv.
  pose proof (init_entry _ _ _ _ _ _ _ Hinit Hdata Hraw Hr Hci) as Hbuilt.
  pose proof (Candle_init_complete _ _ _ _ _ Hbuilt Hv) as Hc.
  cbn [Candle.complete Candle.as_parsed] in Hc. rewrite Hc.
  apply py_eq_str_true.
Qed.

Lemma substring_prefix (p q : string) :
  String.substring 0 (String.length p) (p ++ q) = p.
Proof.
  induction p as [|a p IH]; simpl.
  - now destruct q.
  - now rewrite IH.
Qed.

Lemma str_drop_last_app (p q : string) :
  str_drop_last (String.length q) (p ++ q) = p.
Proof.
  unfold str_drop_last.
  replace (String.length (p ++ q) - String.length q)%nat with (String.length p).
  - apply substring_prefix.
  - induction p as [|a p IH]; simpl; [lia |].
    rewrite IH at 1.
    assert (String.length q <= String.length (p ++ q))%nat
      by (clear; induction p; simpl; lia).
    lia.
Qed.

(** X21. The time of a candle is what [strptime] reads, under the
    module's format, from the entry's [time] string without its last 11
    characters: whatever stands in that suffix plays no part. *)
Theorem time_suffix_dropped (candsjson : string) (c : t) (data : json)
    (records : list json) (i : nat) (r : json) (ci : Candle.t)
    (stamp suffix : string) :
  __init__ candsjson = Ok c ->
  json_loads candsjson = Ok data ->
  py_getitem data "candles" = Ok (JArr records) ->
  records !! i = Some r ->
  candles c !! i = Some ci ->
  py_getitem r "time" = Ok (JStr (stamp ++ suffix)) ->
  String.length suffix = 11%nat ->
  strptime stamp time_format = Ok (Candle.time ci).
Proof.
  intros Hinit Hdata Hraw Hr Hci Ht Hlen.
  pose proof (init_entry _ _ _ _ _ _ _ Hinit Hdata Hraw Hr Hci) as Hbuilt.
  pose proof (Candle_init_time _ _ _ _ _ Hbuilt Ht) as Hs.
  rewrite <- Hlen, str_drop_last_app in Hs. exact Hs.
Qed.

(** X23. From the third candle on, [reversal] is decided by the closes
    alone: it is true exactly when the comparison of a candle's close
    with the one before it and the same comparison one step earlier came
    out differently. *)
Theorem reversal_from_closes (candsjson : string) (c : t) (i : nat)
    (a b d : Candle.t) :
  __init__ candsjson = Ok c ->
  candles c !! i = Some a ->
  candles c !! S i = Some b ->
  candles c !! S (S i) = Some d ->
  exists earlier later,
    Decimal_gt (Candle.close b) (Candle.close a) = Ok earlier /\
    Decimal_gt (Candle.close d) (Candle.close b) = Ok later /\
    Candle.reversal d = Some (xorb later earlier).
Proof.
  intros Hinit Ha Hb Hd.
  destruct (init_later _ _ (S i) b a Hinit) as (earlier & Hgt1 & Heq1);
    [lia | exact Hb | now replace (S i - 1)%nat with i by lia |].
  destruct (init_later _ _ (S (S i)) d b Hinit) as (later & Hgt2 & Heq2);
    [lia | exact Hd | now replace (S (S i) - 1)%nat with (S i) by lia |].
  exists earlier, later. split; [exact Hgt1 | split; [exact Hgt2 |]].
  rewrite Heq2, Heq1. cbn. now destruct later, earlier.
Qed.

End Reading.

(** ** Payloads the constructor refuses *)

Section Refusals.
Context {L : PyLib}.

Import CandleCluster.

(** X5. A payload object that lacks a member is refused with a
    [KeyError] naming it: [granularity] is asked for first, then
    [instrument], then, once the instrument proved a string, [candles]. *)
Theorem missing_member (candsjson : string) (members : list (string * json)) :
  json_loads candsjson = Ok (JObj members) ->
  (assoc "granularity" members = None ->
   __init__ candsjson = Raise (KeyError "granularity")) /\
  (assoc "granularity" members <> None ->
   assoc "instrument" members = None ->
   __init__ candsjson = Raise (KeyError "instrument")) /\
  (assoc "granularity" members <> None ->
   (exists ins, assoc "instrument" members = Some (JStr ins)) ->
   assoc "candles" members = None ->
   __init__ candsjson = Raise (KeyError "candles")).
Proof.
  intros Hdata. unfold __init__. rewrite Hdata. cbn [bind py_getitem].
  split; [| split].
  - now intros ->.
  - intros Hg ->. now destruct (assoc "granularity" members).
  - intros Hg (ins & ->) ->. now destruct (assoc "granularity" members).
Qed.

(** X6. A payload that parses to anything but an object is refused with
    a [TypeError]. *)
Theorem payload_not_an_object (candsjson : string) (data : json) :
  json_loads candsjson = Ok data ->
  (forall members, data <> JObj members) ->
  __init__ candsjson = Raise TypeError.
Proof.
  intros Hdata Hno. unfold __init__. rewrite Hdata. cbn [bind].
  destruct data; try reflexivity. now destruct (Hno members).
Qed.

(** X7. An instrument that is not a string is refused with an
    [AttributeError]: only strings have [replace]. *)
Theorem instrument_not_a_string (candsjson : string) (data gran ins : json) :
  json_loads candsjson = Ok data ->
  py_getitem data "granularity" = Ok gran ->
  py_getitem data "instrument" = Ok ins ->
  (forall text, ins <> JStr text) ->
  __init__ candsjson = Raise (AttributeError "replace").
Proof.
  intros Hdata Hg Hins Hno. unfold __init__.
  rewrite Hdata. cbn [bind]. rewrite Hg. cbn [bind]. rewrite Hins. cbn [bind].
  destruct ins; try reflexivity. now destruct (Hno s).
Qed.

Lemma parse_loop_fail (ins : string) (g : json) (bad : json) (rest : list json)
    (e : exn) (good : list json) (parsed : list Candle.t) :
  Forall2 (fun r c => Candle.__init__ r ins g = Ok c) good parsed ->
  Candle.__init__ bad ins g = Raise e ->
  forall acc, parse_loop (good ++ bad :: rest) ins g acc = Raise e.
Proof.
  intros Hall Hbad.
  induction Hall as [|r c good parsed Hc _ IH]; intros acc; simpl.
  - now rewrite Hbad.
  - rewrite Hc. simpl. apply IH.
Qed.

(** X8. The first entry of the array from which no [Candle] can be built
    stops the construction: the constructor raises that entry's error and
    no cluster comes out, however many entries before and after it are
    sound. *)
Theorem failing_entry_aborts (candsjson : string) (data gran : json) (ins : string)
    (good : list json) (bad : json) (rest : list json)
    (parsed : list Candle.t) (e : exn) :
  payload_members candsjson data gran ins (good ++ bad :: rest) ->
  Forall2 (fun r c => Candle.__init__ r (replace_slash ins) gran = Ok c)
    good parsed ->
  Candle.__init__ bad (replace_slash ins) gran = Raise e ->
  __init__ candsjson = Raise e.
Proof.
  intros (Hdata & Hg & Hins & Hraw) Hall Hbad. unfold __init__.
  rewrite Hdata. cbn [bind]. rewrite Hg. cbn [bind]. rewrite Hins.
  cbn [bind py_replace_slash]. rewrite Hraw. cbn [bind py_iter].
  now rewrite (parse_loop_fail _ _ _ _ _ _ _ Hall Hbad).
Qed.

(** X9. With an empty [candles] array everything rests on
    [standard_deviation] of the empty sequence: where it raises, the
    constructor raises the same error, and where it returns, the cluster
    has no candle and that value as [std]. *)
Theorem empty_candles_array (candsjson : string) (data gran : json) (ins : string) :
  payload_members candsjson data gran ins [] ->
  __init__ candsjson
  = (let* std := standard_deviation [] in
     Ok {| candledata := data; candles := []; ind := 0; gran := gran;
           instrument := replace_slash ins; std := std |}).
Proof.
  intros (Hdata & Hg & Hins & Hraw). unfold __init__.
  rewrite Hdata. cbn [bind]. rewrite Hg. cbn [bind]. rewrite Hins.
  cbn [bind py_replace_slash]. rewrite Hraw. reflexivity.
Qed.

(** X10. A [candles] member that is not an array is refused with a
    [TypeError], except for the empty string and the empty object, over
    which the loop has nothing to visit. *)
Theorem candles_not_an_array (candsjson : string) (data gran : json)
    (ins : string) (raw : json) :
  json_loads candsjson = Ok data ->
  py_getitem data "granularity" = Ok gran ->
  py_getitem data "instrument" = Ok (JStr ins) ->
  py_getitem data "candles" = Ok raw ->
  (forall items, raw <> JArr items) ->
  raw <> JStr "" ->
  raw <> JObj [] ->
  __init__ candsjson = Raise TypeError.
Proof.
  intros Hdata Hg Hins Hraw Harr Hstr Hobj. unfold __init__.
  rewrite Hdata. cbn [bind]. rewrite Hg. cbn [bind]. rewrite Hins.
  cbn [bind py_replace_slash]. rewrite Hraw. cbn [bind].
  destruct raw as [| | | |s|items|members]; try reflexivity.
  - destruct s; [contradiction | reflexivity].
  - now destruct (Harr items).
  - destruct members as [|[k v] members]; [contradiction | reflexivity].
Qed.

End Refusals.

(** ** Indexing, stepping and display *)

Section Access.
Context {L : PyLib}.

Import CandleCluster.

(** X11. An index outside [-N, N), [N] being the number of candles,
    raises an [IndexError]. *)
Theorem getitem_out_of_range (self : t) (index : Z) :
  (index < - __len__ self \/ __len__ self <= index)%Z ->
  __getitem__ self index = Raise IndexError.
Proof.
  unfold __getitem__, __len__, py_index. cbv zeta. intros H.
  destruct (Z.ltb_spec index 0) as [Hneg|Hpos].
  - destruct (Z.ltb_spec (index + Z.of_nat (length (candles self))) 0) as [_|Hge];
      [reflexivity | lia].
  - destruct (Z.ltb_spec index 0) as [Hneg|_]; [lia |].
    destruct (Z.leb_spec (Z.of_nat (length (candles self))) index) as [_|Hlt];
      [reflexivity | lia].
Qed.

Lemma py_index_wrap {A : Type} (l : list A) (i : nat) (x : A) :
  l !! i = Some x ->
  py_index l (Z.of_nat i - Z.of_nat (length l)) = Ok x.
Proof.
  intros Hx. pose proof (lookup_lt_Some _ _ _ Hx) as Hlt.
  unfold py_index. cbv zeta.
  destruct (Z.ltb_spec (Z.of_nat i - Z.of_nat (length l)) 0) as [_|Hge]; [| lia].
  replace (Z.of_nat i - Z.of_nat (length l) + Z.of_nat (length l))%Z
    with (Z.of_nat i) by lia.
  destruct (Z.ltb_spec (Z.of_nat i) 0) as [Hneg|_]; [lia |].
  destruct (Z.leb_spec (Z.of_nat (length l)) (Z.of_nat i)) as [Hge|_]; [lia |].
  simpl. now rewrite Nat2Z.id, Hx.
Qed.

(** X12. Inside the range a candle answers to two indices: the one at
    position [i] is both [self[i]] and [self[i - N]], so [self[-1]] is the
    last candle. *)
Theorem getitem_negative (self : t) (i : nat) (c : Candle.t) :
  candles self !! i = Some c ->
  __getitem__ self (Z.of_nat i) = Ok c /\
  __getitem__ self (Z.of_nat i - __len__ self) = Ok c.
Proof.
  intros Hc. unfold __getitem__, __len__.
  split; [now apply py_index_nat | now apply py_index_wrap].
Qed.

(** X13. Traversal and indexing agree: the candle a traversal hands over
    in [i]-th place is [self[i]], and every [self[i]] that exists is handed
    over in that place. *)
Theorem traversal_matches_indexing (self : t) (i : nat) (c : Candle.t) :
  (exists seen, snd (traverse self) = Some seen /\ seen !! i = Some c) <->
  __getitem__ self (Z.of_nat i) = Ok c.
Proof.
  rewrite traverse_all. cbn [snd]. unfold __getitem__. split.
  - intros (seen & [= <-] & Hc). now apply py_index_nat.
  - intros H. exists (candles self). split; [reflexivity |].
    unfold py_index in H. cbv zeta in H.
    destruct (Z.ltb_spec (Z.of_nat i) 0) as [Hneg|_]; [lia |].
    destruct (_ || _); [discriminate |].
    rewrite Nat2Z.id in H.
    destruct (candles self !! i); [congruence | discriminate].
Qed.

Lemma next_calls_from (k : nat) :
  forall self,
    snd (next_calls k self)
    = map (fun j => (ind self + Z.of_nat j)%Z) (seq 0 k) /\
    ind (fst (next_calls k self)) = (ind self + Z.of_nat k)%Z /\
    candles (fst (next_calls k self)) = candles self.
Proof.
  induction k as [|k IH]; intros self.
  - simpl. repeat split. lia.
  - cbn [next_calls]. unfold __next__. cbv zeta.
    set (self' := {| candledata := candledata self; candles := candles self;
                     ind := (ind self + 1)%Z; gran := gran self;
                     instrument := instrument self; std := std self |}).
    destruct (IH self') as (Hvals & Hind & Hcs).
    destruct (next_calls k self') as [self'' values]. cbn [fst snd] in *.
    split; [| split].
    + rewrite Hvals. cbn [seq map]. f_equal; [lia |].
      rewrite <- seq_shift, map_map. apply map_ext. intros j.
      unfold self'. cbn [ind]. lia.
    + rewrite Hind. unfold self'. cbn [ind]. lia.
    + rewrite Hcs. reflexivity.
Qed.

Lemma init_cursor (candsjson : string) (c : t) :
  __init__ candsjson = Ok c -> ind c = 0%Z.
Proof.
  unfold __init__. intros H. repeat peel H. now injection H as <-.
Qed.

(** X14. Calling [next] on a constructed cluster [k] times in a row
    returns the integers [0, 1, ..., k - 1], never a candle and never a
    stop, for any [k], also beyond the number of candles; the candles
    stay as they are. *)
Theorem next_counts (candsjson : string) (c : t) (k : nat) :
  __init__ candsjson = Ok c ->
  snd (next_calls k c) = map Z.of_nat (seq 0 k) /\
  candles (fst (next_calls k c)) = candles c.
Proof.
  intros Hinit.
  destruct (next_calls_from k c) as (Hvals & _ & Hcs).
  split; [| exact Hcs].
  rewrite Hvals, (init_cursor _ _ Hinit). apply map_ext. intros j. lia.
Qed.

(** X22. [__str__] raises exactly on a cluster without candles, and what
    it raises then is an [IndexError]. *)
Theorem str_fails_on_empty (datetime_str : datetime -> string) (self : t) :
  (__str__ datetime_str self = Raise IndexError <-> candles self = []) /\
  (forall e, __str__ datetime_str self = Raise e -> e = IndexError).
Proof.
  unfold __str__. cbv zeta.
  destruct (candles self) as [|c0 rest] eqn:Hcs.
  - split; [split; reflexivity |]. intros e H. now injection H as <-.
  - destruct (lookup_lt_is_Some_2 (c0 :: rest) (length rest)) as [cl Hcl];
      [simpl; lia |].
    assert (Hlast : py_index (c0 :: rest) (-1) = Ok cl).
    { pose proof (py_index_wrap _ _ _ Hcl) as Hneg.
      cbn [length] in Hneg.
      replace (Z.of_nat (length rest) - Z.of_nat (S (length rest)))%Z
        with (-1)%Z in Hneg by lia.
      exact Hneg. }
    rewrite Hlast. cbn [py_index bind].
    split; [split; discriminate | discriminate].
Qed.

End Access.

(** ** Concatenation beyond the instrument test *)

Section AddEdges.
Context {L : PyLib}.

Import CandleCluster.


(** X15. With equal instruments, an operand without candles makes
    [__add__] raise an [IndexError]: the first and last candles are read
    before anything else. *)
Theorem add_empty_operand (a b : t) :
  instrument a = instrument b ->
  candles a = [] \/ candles b = [] ->
  __add__ a b = Raise IndexError.
Proof.
  intros Hins Hempty. unfold __add__, add_body, __getitem__.
  rewrite Hins, String.eqb_refl. cbn [negb].
  destruct (candles a) as [|a0 arest] eqn:Ha; [reflexivity |].
  destruct Hempty as [Hnil|Hnil]; [discriminate Hnil |].
  rewrite Hnil. reflexivity.
Qed.


End AddEdges.

(** ** history on recognised names *)

Section HistoryValues.
Context {L : PyLib}.

Import CandleCluster.

Lemma history_list_values (name : string) (cs : list Candle.t) :
  Candle.recognized name = true ->
  exists values,
    history_list cs (Some name) = Ok values /\
    Forall2 (fun c v => Candle.getattr c (Some name) = Ok v) cs values.
Proof.
  intros Hrec. induction cs as [|c cs (values & Hvalues & Hall)].
  - exists []. split; [reflexivity | constructor].
  - assert (Hget : exists v, Candle.getattr c (Some name) = Ok v).
    { unfold Candle.getattr.
      destruct (Candle.instance_attr c name) as [v|] eqn:Hattr; [now exists v |].
      destruct (inherited_attr name) eqn:Hinh; [now eexists |].
      exfalso. unfold Candle.recognized in Hrec. rewrite Hinh in Hrec.
      destruct (Candle.is_attribute name) eqn:Hknown; [| discriminate].
      revert Hattr Hknown.
      unfold Candle.instance_attr, Candle.is_attribute, Candle.attribute_names.
      cbn [existsb].
      repeat (destruct (String.eqb name _); [discriminate |]).
      discriminate. }
    destruct Hget as [v Hv]. exists (v :: values). split.
    + cbn [history_list]. rewrite Hv. cbn [bind]. now rewrite Hvalues.
    + now constructor.
Qed.

Lemma history_pairs_lists (x y : option string) (cs : list Candle.t)
    (xs ys : list Candle.attr_value) :
  history_list cs x = Ok xs ->
  history_list cs y = Ok ys ->
  forall ax ay, history_pairs cs x y ax ay = Ok (ax ++ xs, ay ++ ys).
Proof.
  revert xs ys. induction cs as [|c cs IH]; intros xs ys Hx Hy ax ay.
  - injection Hx as <-. injection Hy as <-. simpl. now rewrite !app_nil_r.
  - cbn [history_list] in Hx, Hy.
    apply bind_Ok in Hx as (vx & Hvx & Hx). apply bind_Ok in Hx as (xs' & Hxs & Hx).
    apply bind_Ok in Hy as (vy & Hvy & Hy). apply bind_Ok in Hy as (ys' & Hys & Hy).
    injection Hx as <-. injection Hy as <-.
    cbn [history_pairs]. rewrite Hvx, Hvy. cbn [bind].
    rewrite (IH _ _ Hxs Hys). now rewrite <- !app_assoc.
Qed.

(** X17. [history(name)] for a name [getattr] resolves returns one value
    per candle, in the order of the candles: the value [getattr] finds
    under that name on the candle at the same position. *)
Theorem history_single (self : t) (name : string) :
  Candle.recognized name = true ->
  exists values,
    history self (Some name) None = Ok (HList values) /\
    Forall2 (fun c v => Candle.getattr c (Some name) = Ok v)
      (candles self) values.
Proof.
  intros Hrec.
  destruct (history_list_values name (candles self) Hrec) as (values & Hv & Hall).
  exists values. split; [| exact Hall]. unfold history.
  replace (truthy (Some name) && truthy None) with false
    by (now destruct (truthy (Some name))).
  cbn [truthy negb]. now rewrite Hv.
Qed.

(** X18. [history(x, y)] for two non-empty names [getattr] resolves is
    the pair of [history(x)] and [history(y)]: two sequences, each with
    one value per candle. *)
Theorem history_pair_is_two_singles (self : t) (x y : string) :
  x <> ""%string -> y <> ""%string ->
  Candle.recognized x = true -> Candle.recognized y = true ->
  exists xs ys,
    history self (Some x) None = Ok (HList xs) /\
    history self (Some y) None = Ok (HList ys) /\
    history self (Some x) (Some y) = Ok (HPair xs ys) /\
    length xs = length (candles self) /\
    length ys = length (candles self).
Proof.
  intros Hx Hy Hrx Hry.
  destruct (history_list_values x (candles self) Hrx) as (xs & Hxs & Hallx).
  destruct (history_list_values y (candles self) Hry) as (ys & Hys & Hally).
  exists xs, ys. unfold history.
  replace (truthy (Some x) && truthy None) with false
    by (now destruct (truthy (Some x))).
  replace (truthy (Some y) && truthy None) with false
    by (now destruct (truthy (Some y))).
  rewrite (truthy_nonempty x Hx), (truthy_nonempty y Hy).
  cbn [truthy negb andb]. rewrite Hxs, Hys. cbn [bind].
  rewrite (history_pairs_lists _ _ _ _ _ Hxs Hys). cbn [app fst snd bind].
  repeat (split; [reflexivity |]).
  split; symmetry; [exact (Forall2_length _ _ _ Hallx)
                   | exact (Forall2_length _ _ _ Hally)].
Qed.

(** X19. [history()] with no argument raises a [TypeError] on every
    cluster that holds a candle: the absent name reaches [getattr]. *)
Theorem history_no_arguments (self : t) :
  candles self <> [] ->
  history self None None = Raise TypeError.
Proof.
  intros Hne. unfold history. cbn [truthy andb negb].
  destruct (candles self) as [|c rest]; [contradiction | reflexivity].
Qed.

(** X20. On a cluster without candles [history] never raises, whatever
    the arguments, unknown names included: nothing is looked up. *)
Theorem history_of_empty (self : t) (valuex valuey : option string) :
  candles self = [] ->
  history self valuex valuey
  = Ok (if truthy valuex && truthy valuey then HPair [] []
        else if negb (truthy valuey) then HList []
        else HNone).
Proof.
  intros Hnil. unfold history. rewrite Hnil.
  destruct (truthy valuex && truthy valuey); [reflexivity |].
  now destruct (negb (truthy valuey)).
Qed.

End HistoryValues.

(** ** The further properties at the sample payloads *)

Section FurtherWitnesses.

Import CandleCluster Samples Refused.

Lemma cluster_boolean_complete_built :
  __init__ payload_boolean_complete = Ok cluster_boolean_complete.
Proof. reflexivity. Qed.

(** A JSON [true] does not make the candle complete. *)
Example boolean_true_is_not_complete :
  map Candle.complete (candles cluster_boolean_complete) = [false].
Proof. reflexivity. Qed.

Example str_of_A :
  __str__ (L := Ref.lib) dt_str cluster_A
  = Ok "<3 candles, time: 2020-01-01 00:00:01 thru 2020-01-01 00:00:03>"%string.
Proof. reflexivity. Qed.

Lemma candles_share_tags_witness :
  exists ci,
    candles cluster_A !! 2%nat = Some ci /\
    Candle.instrument ci = instrument cluster_A /\
    Candle.gran ci = gran cluster_A.
Proof.
  eexists. split; [reflexivity |].
  apply (candles_share_tags payload_A cluster_A 2);
    [exact cluster_A_built | reflexivity].
Defined.

Lemma instrument_normalised_witness :
  exists data raw,
    json_loads (PyLib := Ref.lib) payload_A = Ok data /\
    py_getitem data "instrument" = Ok (JStr raw) /\
    String.length (instrument cluster_A) = String.length raw /\
    (forall n, String.get n (instrument cluster_A) <> Some "/"%char) /\
    (forall n a, String.get n raw = Some a ->
       String.get n (instrument cluster_A)
       = Some (if Ascii.eqb a "/" then "_"%char else a)).
Proof.
  apply (instrument_normalised payload_A cluster_A). exact cluster_A_built.
Defined.

Lemma displacements_kept_witness :
  exists ci,
    candles cluster_A !! 1%nat = Some ci /\
    Decimal_sub prec (Candle.close ci) (Candle.open ci)
      = Ok (Candle.oc_displacement ci) /\
    Decimal_sub prec (Candle.high ci) (Candle.low ci)
      = Ok (Candle.total_displacement ci).
Proof.
  eexists. split; [reflexivity |].
  apply (displacements_kept payload_A cluster_A 1);
    [exact cluster_A_built | reflexivity].
Defined.

Lemma complete_only_for_the_string_witness :
  exists ci,
    candles cluster_boolean_complete !! 0%nat = Some ci /\
    (Candle.complete ci = true <-> JBool true = JStr "true").
Proof.
  eexists. split; [reflexivity |].
  eapply (complete_only_for_the_string payload_boolean_complete
            cluster_boolean_complete _ _ 0);
    [exact cluster_boolean_complete_built | reflexivity | reflexivity
     | reflexivity | reflexivity | reflexivity].
Defined.

Lemma missing_member_witness :
  __init__ (L := Ref.lib) payload_no_granularity = Raise (KeyError "granularity").
Proof.
  assert (Hdata : json_loads (PyLib := Ref.lib) payload_no_granularity
                  = Ok (JObj [("instrument", JStr "USD/CAD"%string);
                              ("candles", JArr [])]))
    by reflexivity.
  apply (proj1 (missing_member _ _ Hdata)). reflexivity.
Defined.

Lemma payload_not_an_object_witness :
  __init__ (L := Ref.lib) payload_array = Raise TypeError.
Proof.
  apply (payload_not_an_object payload_array (JArr [JInt 1; JInt 2]));
    [reflexivity | discriminate].
Defined.

Lemma instrument_not_a_string_witness :
  __init__ (L := Ref.lib) payload_numeric_instrument
  = Raise (AttributeError "replace").
Proof.
  eapply (instrument_not_a_string payload_numeric_instrument _ _ (JInt 7));
    [reflexivity | reflexivity | reflexivity | discriminate].
Defined.

Lemma failing_entry_aborts_witness :
  __init__ (L := Ref.lib) payload_bad_entry = Raise (KeyError "mid").
Proof.
  eapply (failing_entry_aborts payload_bad_entry _ _ "USD/CAD"
            [entry "1.0" "01"] entry_no_mid [entry "1.3" "03"]).
  - repeat split; reflexivity.
  - constructor; [reflexivity | constructor].
  - reflexivity.
Defined.

Lemma empty_candles_array_witness :
  __init__ (L := Ref.lib) payload_empty = Raise (Exn "EmptyInputError" []).
Proof.
  erewrite (empty_candles_array payload_empty _ _ "USD/CAD");
    [reflexivity | repeat split; reflexivity].
Defined.

Lemma candles_not_an_array_witness :
  __init__ (L := Ref.lib) payload_candles_text = Raise TypeError.
Proof.
  eapply (candles_not_an_array payload_candles_text _ _ "USD/CAD" (JStr "none"));
    [reflexivity | reflexivity | reflexivity | reflexivity
     | discriminate | discriminate | discriminate].
Defined.

Lemma getitem_out_of_range_witness :
  __getitem__ cluster_A 3 = Raise IndexError /\
  __getitem__ cluster_A (-4) = Raise IndexError.
Proof.
  split.
  - apply (getitem_out_of_range cluster_A 3). right. vm_compute. discriminate.
  - apply (getitem_out_of_range cluster_A (-4)). left. reflexivity.
Defined.

Lemma getitem_negative_witness :
  exists c,
    candles cluster_A !! 2%nat = Some c /\
    __getitem__ cluster_A 2 = Ok c /\ __getitem__ cluster_A (-1) = Ok c.
Proof.
  eexists. split; [reflexivity |].
  apply (getitem_negative cluster_A 2). reflexivity.
Defined.

Lemma next_counts_witness :
  snd (next_calls 5 cluster_A) = [0; 1; 2; 3; 4]%Z /\
  candles (fst (next_calls 5 cluster_A)) = candles cluster_A.
Proof.
  apply (next_counts payload_A cluster_A 5). exact cluster_A_built.
Defined.

Lemma add_empty_operand_witness :
  __add__ no_cluster no_cluster = Raise IndexError.
Proof.
  apply (add_empty_operand no_cluster no_cluster); [reflexivity | now left].
Defined.


Lemma history_single_witness :
  exists values,
    history cluster_A (Some "close"%string) None = Ok (HList values) /\
    Forall2 (fun c v => Candle.getattr c (Some "close"%string) = Ok v)
      (candles cluster_A) values.
Proof.
  apply (history_single cluster_A "close"). reflexivity.
Defined.

Lemma history_pair_is_two_singles_witness :
  exists xs ys,
    history cluster_A (Some "close"%string) None = Ok (HList xs) /\
    history cluster_A (Some "volume"%string) None = Ok (HList ys) /\
    history cluster_A (Some "close"%string) (Some "volume"%string)
    = Ok (HPair xs ys) /\
    length xs = length (candles cluster_A) /\
    length ys = length (candles cluster_A).
Proof.
  apply (history_pair_is_two_singles cluster_A "close" "volume");
    [discriminate | discriminate | reflexivity | reflexivity].
Defined.

Lemma history_no_arguments_witness :
  history cluster_A None None = Raise TypeError.
Proof.
  apply (history_no_arguments cluster_A). discriminate.
Defined.

Lemma history_of_empty_witness :
  history no_cluster (Some "bogus"%string) None = Ok (HList []).
Proof.
  apply (history_of_empty no_cluster (Some "bogus"%string) None). reflexivity.
Defined.

Lemma time_suffix_dropped_witness :
  exists ci,
    candles cluster_A !! 0%nat = Some ci /\
    strptime "2020-01-01T00:00:01" time_format = Ok (Candle.time ci).
Proof.
  eexists. split; [reflexivity |].
  eapply (time_suffix_dropped payload_A cluster_A _ _ 0 _ _
            "2020-01-01T00:00:01" ".000000000Z");
    [exact cluster_A_built | reflexivity | reflexivity | reflexivity
     | reflexivity | reflexivity | reflexivity].
Defined.

Lemma reversal_from_closes_witness :
  exists a b d,
    candles cluster_B !! 0%nat = Some a /\
    candles cluster_B !! 1%nat = Some b /\
    candles cluster_B !! 2%nat = Some d /\
    exists earlier later,
      Decimal_gt (Candle.close b) (Candle.close a) = Ok earlier /\
      Decimal_gt (Candle.close d) (Candle.close b) = Ok later /\
      Candle.reversal d = Some (xorb later earlier).
Proof.
  eexists _, _, _.
  split; [reflexivity |]. split; [reflexivity |]. split; [reflexivity |].
  apply (reversal_from_closes payload_B cluster_B 0);
    [exact cluster_B_built | reflexivity | reflexivity | reflexivity].
Defined.

End FurtherWitnesses.
